(** * AMASS G1 viewer: archive scan, action classifier and queries

    A shallow embedding of [scripts/action_analyzer.py] and
    [scripts/data_explorer.py], and the properties of the scan, of the
    filename classifier and of the query operations built on them.

    Conventions of the embedding.
    - A Python [str] is a [string]; [str.lower] folds the ASCII letters
      only, which is what it does on the ASCII file names of the archive.
    - A Python [dict] is an association list in insertion order, since the
      scripts iterate over their dictionaries.
    - Python floats are exact rationals ([Q], kept reduced), extended with
      the three special values NumPy can produce; rounding is not modelled.
    - [print] calls and issued warnings are collected as a list of events. *)

From Stdlib Require Import QArith Ascii.
From stdpp Require Import base list strings gmap sorting.

Local Open Scope string_scope.
Local Open Scope list_scope.

(** ** Python strings *)

Module PyStr.

(** One character of [str.lower]: [A-Z] goes to [a-z]. *)
Definition lower_ascii (c : ascii) : ascii :=
  let n := N_of_ascii c in
  if ((65 <=? n) && (n <=? 90))%N then ascii_of_N (n + 32) else c.

Fixpoint lower (s : string) : string :=
  match s with
  | EmptyString => EmptyString
  | String c s' => String (lower_ascii c) (lower s')
  end.

(** [s.startswith(p)] *)
Fixpoint startswith (p s : string) : bool :=
  match p, s with
  | EmptyString, _ => true
  | String _ _, EmptyString => false
  | String a p', String b s' => if ascii_dec a b then startswith p' s' else false
  end.

(** [p in s]: [p] occurs in [s] at some offset. *)
Fixpoint contains (p s : string) : bool :=
  startswith p s ||
  match s with
  | EmptyString => false
  | String _ s' => contains p s'
  end.

(** [s.endswith(p)], used by the [*.npz] glob. *)
Definition endswith (p s : string) : bool :=
  startswith (String.rev p) (String.rev s).

(** What [p in s] means. *)
Definition is_substring (p s : string) : Prop :=
  exists pre post, s = pre +:+ p +:+ post.

(** Case-insensitive occurrence of [p] in [s]. *)
Definition ci_substring (p s : string) : Prop :=
  is_substring (lower p) (lower s).

(** [s.replace(old, new)] for a non-empty [old]: the occurrences of [old]
    are taken from left to right, without overlap. [skip] counts the
    characters of an occurrence still to be dropped. *)
Fixpoint replace_from (old new : string) (skip : nat) (s : string) : string :=
  match s with
  | EmptyString => EmptyString
  | String c s' =>
      match skip with
      | S k => replace_from old new k s'
      | O =>
          if startswith old s
          then new +:+ replace_from old new (String.length old - 1) s'
          else String c (replace_from old new 0 s')
      end
  end.

Definition replace_all (old new s : string) : string := replace_from old new 0 s.

(** [s.split(sep)] for a one-character separator. *)
Fixpoint split_on (sep : ascii) (s : string) : list string :=
  match s with
  | EmptyString => [EmptyString]
  | String c s' =>
      if ascii_dec c sep then EmptyString :: split_on sep s'
      else match split_on sep s' with
           | part :: parts => String c part :: parts
           | [] => [String c EmptyString]
           end
  end.

Definition is_digit (c : ascii) : bool :=
  let n := N_of_ascii c in ((48 <=? n) && (n <=? 57))%N.

Fixpoint all_digits (s : string) : bool :=
  match s with
  | EmptyString => true
  | String c s' => is_digit c && all_digits s'
  end.

(** [s.isdigit()]: at least one character, and digits only (the ASCII
    digits, as for [lower]). *)
Definition isdigit (s : string) : bool :=
  match s with
  | EmptyString => false
  | String _ _ => all_digits s
  end.

End PyStr.

(** ** Python dictionaries, in insertion order *)

Section Dict.
Context {V : Type}.

Definition dict := list (string * V).

(** [d[k]], [None] standing for [KeyError]. *)
Fixpoint dict_get (k : string) (d : dict) : option V :=
  match d with
  | [] => None
  | (k', v) :: d' => if decide (k = k') then Some v else dict_get k d'
  end.

(** [k in d] *)
Definition dict_mem (k : string) (d : dict) : bool :=
  bool_decide (is_Some (dict_get k d)).

(** [d[k] = v]: an existing key keeps its position, a new key goes last. *)
Fixpoint dict_set (k : string) (v : V) (d : dict) : dict :=
  match d with
  | [] => [(k, v)]
  | (k', v') :: d' =>
      if decide (k = k') then (k', v) :: d' else (k', v') :: dict_set k v d'
  end.

(** In-place update of the value stored under [k] (a mutation through
    [d[k]]); nothing happens when the key is absent. *)
Fixpoint dict_alter (f : V -> V) (k : string) (d : dict) : dict :=
  match d with
  | [] => []
  | (k', v') :: d' =>
      if decide (k = k') then (k', f v') :: d' else (k', v') :: dict_alter f k d'
  end.

Definition dict_keys (d : dict) : list string := d.*1.

(** A sequence of stores [d[k] = v], first to last. *)
Definition dict_set_all (kvs : list (string * V)) (d : dict) : dict :=
  foldl (fun d kv => dict_set kv.1 kv.2 d) d kvs.

End Dict.

Arguments dict : clear implicits.

(** [defaultdict(list)]: [d[k].append(x)]. *)
Definition dict_append {A : Type} (k : string) (x : A) (d : dict (list A)) : dict (list A) :=
  if dict_mem k d then dict_alter (fun l => l ++ [x]) k d else d ++ [(k, [x])].

(** ** File paths *)

(** A path below the data root, as its components. *)
Definition path := list string.

(** [Path.name]: the last component. *)
Definition path_name (p : path) : string := List.last p "".

(** ** Exceptions, results and printed events *)

Inductive exn :=
| FileNotFoundError
| NotADirectoryError
| LoadError            (* [np.load] rejects the file *)
| KeyError (key : string)
| IndexError
| ZeroDivisionError.

Inductive result (A : Type) :=
| Ok (a : A)
| Raise (e : exn).

Arguments Ok {A} a.
Arguments Raise {A} e.

(** Sequencing: a raised exception skips the rest of the block. The
    notation [x ← r; k] is the one of the [MBind] class. *)
#[global] Instance result_ret : MRet result := fun _ a => Ok a.
#[global] Instance result_bind : MBind result := fun _ _ k r =>
  match r with
  | Ok a => k a
  | Raise e => Raise e
  end.

Definition is_ok {A : Type} (r : result A) : bool :=
  match r with Ok _ => true | Raise _ => false end.

(** [for x in l: acc = step(acc, x)], where the body may raise. *)
Fixpoint foldM {A S : Type} (step : S -> A -> result S) (acc : S) (l : list A) : result S :=
  match l with
  | [] => Ok acc
  | x :: l' => acc' ← step acc x; foldM step acc' l'
  end.

(** ** Floats as NumPy sees them *)

Inductive npfloat :=
| Num (q : Q)
| NaN
| PInf
| NInf.

Inductive np_warning :=
| MeanOfEmptySlice          (* RuntimeWarning: Mean of empty slice. *)
| InvalidValueInDivide      (* RuntimeWarning: invalid value encountered in divide *)
| DivideByZeroInDivide.     (* RuntimeWarning: divide by zero encountered in divide *)

(** [a <= b] on floats; every comparison with NaN is false. *)
Definition np_le (a b : npfloat) : bool :=
  match a, b with
  | NaN, _ | _, NaN => false
  | NInf, _ | _, PInf => true
  | Num x, Num y => Qle_bool x y
  | _, _ => false
  end.

Definition Qsum (l : list Q) : Q := foldl (fun acc x => Qred (acc + x)) 0%Q l.
Definition Zsum (l : list Z) : Z := foldl Z.add 0%Z l.
Definition Nsum (l : list nat) : nat := foldl Nat.add 0 l.

(** The division at the end of [np.mean]: the accumulated sum over the
    number of items. A zero count is not trapped: IEEE division yields
    NaN or an infinity and a warning is issued. *)
Definition np_true_divide (x : Q) (rcount : nat) : npfloat * list np_warning :=
  match rcount with
  | O =>
      if Qeq_bool x 0 then (NaN, [InvalidValueInDivide])
      else if Qle_bool 0 x then (PInf, [DivideByZeroInDivide])
      else (NInf, [DivideByZeroInDivide])
  | S _ => (Num (Qred (x / inject_Z (Z.of_nat rcount))), [])
  end.

(** [np.mean] of a list of floats. *)
Definition np_mean (a : list Q) : npfloat * list np_warning :=
  let rcount := length a in
  let empty_warning := match rcount with O => [MeanOfEmptySlice] | S _ => [] end in
  let '(ret, divide_warnings) := np_true_divide (Qsum a) rcount in
  (ret, empty_warning ++ divide_warnings).

(** ** Python list helpers *)

(** [l[:n]] for an integer [n] of either sign. *)
Definition py_slice_to {A : Type} (n : Z) (l : list A) : list A :=
  if (0 <=? n)%Z then take (Z.to_nat n) l
  else take (Z.to_nat (Z.of_nat (length l) + n)) l.

(** [sorted(l, key=...)]: a stable sort; [leb x y] compares the keys. *)
Fixpoint py_insert {A : Type} (leb : A -> A -> bool) (x : A) (l : list A) : list A :=
  match l with
  | [] => [x]
  | y :: l' => if leb x y then x :: y :: l' else y :: py_insert leb x l'
  end.

Definition py_sorted {A : Type} (leb : A -> A -> bool) (l : list A) : list A :=
  foldr (py_insert leb) [] l.

(** ** The archive on disk *)

(** What [np.load] finds in a motion file: the [fps] scalar and the first
    dimension of [body_positions]; a missing array is [None]. *)
Record npz := {
  npz_fps : option Q;
  npz_num_frames : option Z
}.

(** A directory entry: a file with its payload ([None] when it is not a
    readable archive) and its size in bytes, or a directory with its
    entries in the order [iterdir] lists them. *)
#[warnings="-register-all"]
Inductive node :=
| File (payload : option npz) (st_size : Z)
| Dir (entries : list (string * node)).

Definition is_dir (n : node) : bool :=
  match n with Dir _ => true | File _ _ => false end.

(** [dir.glob("*.npz")]: the entries whose name ends in [.npz], in
    listing order. *)
Definition glob_npz (entries : list (string * node)) : list (string * node) :=
  filter (fun e => PyStr.endswith ".npz" e.1 = true) entries.

(** [dir.rglob("*.npz")]: the matches of the directory itself, then those
    of each sub-directory, recursively. *)
Fixpoint rglob_npz (here : path) (n : node) : list path :=
  match n with
  | File _ _ => []
  | Dir entries =>
      map (fun e => here ++ [e.1]) (glob_npz entries) ++
      flat_map (fun e => rglob_npz (here ++ [e.1]) e.2) entries
  end.

(** ** Printed output *)

Record motion := {
  m_subject : string;
  m_file : string;
  m_duration : Q;
  m_frames : Z;
  m_file_size : Q
}.

(** One event per [print] call or issued warning; the arguments of the
    format string are kept as data. *)
Inductive event :=
| ScanBanner
| WarnUnreadable (file_path : path) (e : exn)
| ErrNoDataset (dataset_name : string)
| DatasetHeader (dataset_name : string)
| SubjectName (subject_name : string)
| SubjectFileCount (n : nat)
| SubjectTotalFrames (n : Z)
| SubjectMeanDuration (x : npfloat)
| SubjectMeanFileSize (x : npfloat)
| ShownFile (filename : string)
| MoreFiles (n : nat)
| RuntimeWarning (w : np_warning)
| MotionsFound (n : nat)
| MotionRow (m : motion)
| NoMotionFound
| SearchBanner (keyword : string)
| FilesFound (n : nat)
| FoundRow (dataset : string) (file_path : path)
| NoFileFound (keyword : string)
| OverviewBanner
| OverviewRow (dataset : string) (n_files : nat) (action_types : list string).

(** What [print_summary] prints. *)
Inductive summary_event :=
| SummaryDatasets (n : nat)
| SummaryFiles (n : nat)
| SummaryFrames (n : Z)
| SummaryDuration (seconds minutes : Q)
| SummaryRow (name : string) (n_files : nat) (n_frames : Z) (avg_duration : Q).

(** What [analyze_dataset_actions] prints. *)
Inductive analysis_event :=
| AnalysisMissing (dataset_name : string)
| AnalysisHeader (dataset_name : string)
| AnalysisTotalFiles (n : nat)
| CategoryStat (category : string) (n : nat) (percentage : Q)
| CategoryExamples (category : string)
| ExampleAction (action_name filename : string)
| ExampleMore (n : nat)
| UnknownExamples
| UnknownFile (filename : string).

(** ** The action classifier ([action_analyzer.py]) *)

Module ActionAnalyzer.

(** The rule table type: categories in declaration order, each with its
    patterns in declaration order. *)
Definition rules := list (string * list string).

(** [self.action_patterns] *)
Definition action_patterns : rules :=
  [ ("dance", ["dance"; "flamenco"; "salsa"; "bachata"; "reggaeton";
               "karsilamas"; "zeimpekiko"; "hasapiko"; "maleviziotikos";
               "haniotikos"]);
    ("emotion", ["happy"; "sad"; "angry"; "tired"; "excited"; "afraid";
                 "annoyed"; "nervous"; "scary"; "satisfied"]);
    ("daily", ["walk"; "run"; "jump"; "sit"; "stand"; "reach"; "grab";
               "throw"; "catch"]);
    ("sport", ["basketball"; "football"; "tennis"; "swimming"; "boxing";
               "kick"; "punch"]);
    ("gesture", ["wave"; "point"; "clap"; "shake"; "nod"; "bow"]);
    ("other", ["mix"; "musical"; "theater"; "performance"]) ].

(** The inner loop of the classifier: walk the patterns of one category
    and stop ([break]) at the first one found in the lower-cased name. *)
Fixpoint first_hit (patterns : list string) (filename : string) : bool :=
  match patterns with
  | [] => false
  | pattern :: rest =>
      if PyStr.contains pattern filename then true else first_hit rest filename
  end.

(** The outer loop: walk the categories and stop at the first one that
    sets [categorized]. *)
Fixpoint categorize (table : rules) (filename : string) : option string :=
  match table with
  | [] => None
  | (category, patterns) :: rest =>
      if first_hit patterns filename then Some category else categorize rest filename
  end.

(** The category a file name ends up under in [_extract_action_info]:
    the name is lower-cased, the table is walked, and a name that no
    pattern hits goes to ["unknown"]. *)
Definition classify (table : rules) (name : string) : string :=
  match categorize table (PyStr.lower name) with
  | Some category => category
  | None => "unknown"
  end.

Record action_info := {
  categories : dict (list path);
  file_count : nat
}.

(** [_extract_action_info], restricted to the category grouping. *)
Definition _extract_action_info (table : rules) (files : list path) : action_info :=
  {| categories :=
       foldl (fun cats file_path =>
                dict_append (classify table (path_name file_path)) file_path cats)
             [] files;
     file_count := length files |}.

(** The quick look at the files of one dataset in
    [list_all_datasets_actions], with the bound of the slice written as
    a parameter: only [files[:sample_size]] is looked at; for each of
    these names every category is tried, the [break] leaving the
    pattern loop only. *)
Definition sample_first (sample_size : nat) (table : rules) (files : list path)
    : gset string :=
  foldl (fun action_types file_path =>
           let filename := PyStr.lower (path_name file_path) in
           foldl (fun action_types rule =>
                    if first_hit rule.2 filename
                    then action_types ∪ {[ rule.1 ]}
                    else action_types)
                 action_types table)
        ∅ (take sample_size files).

(** The slice the script takes is [files[:10]]. *)
Definition sample_action_types (table : rules) (files : list path) : gset string :=
  sample_first 10 table files.

(** The names of the directories directly below the data root. *)
Definition dataset_names (entries : list (string * node)) : list string :=
  (filter (fun e => is_dir e.2 = true) entries).*1.

(** [self.data_root / dataset]: the entry of that name, if there is one. *)
Definition child (entries : list (string * node)) (name : string) : option node :=
  dict_get name entries.

(** [list_all_datasets_actions]: one row per dataset holding files, in
    name order, with the sampled categories in name order. *)
Definition list_all_datasets_actions (table : rules)
    (entries : list (string * node)) : list event :=
  OverviewBanner ::
  flat_map (fun dataset =>
    let files := from_option (rglob_npz [dataset]) [] (child entries dataset) in
    match files with
    | [] => []
    | _ :: _ =>
        [OverviewRow dataset (length files)
           (py_sorted String.leb (elements (sample_action_types table files)))]
    end)
    (py_sorted String.leb (dataset_names entries)).

(** [find_specific_action]: the files whose name contains the keyword,
    case folded, in one dataset or in all of them. A dataset that does
    not exist is skipped ([continue]). At most 20 rows are printed. *)
Definition find_specific_action (entries : list (string * node))
    (action_keyword : string) (dataset_name : option string) : list event :=
  let datasets :=
    match dataset_name with
    | Some name => if decide (name = "") then dataset_names entries else [name]
    | None => dataset_names entries
    end in
  let found_files :=
    flat_map (fun dataset =>
      match child entries dataset with
      | None => []
      | Some dataset_dir =>
          map (fun file_path => (dataset, file_path))
            (filter (fun file_path =>
                       PyStr.contains (PyStr.lower action_keyword)
                                      (PyStr.lower (path_name file_path)) = true)
                    (rglob_npz [dataset] dataset_dir))
      end) datasets in
  SearchBanner action_keyword ::
  match found_files with
  | [] => [NoFileFound action_keyword]
  | _ :: _ =>
      FilesFound (length found_files) ::
      map (fun r => FoundRow r.1 r.2) (take 20 found_files) ++
      (if decide (20 < length found_files) then [MoreFiles (length found_files - 20)] else [])
  end.

(** [_extract_action_name]: the four suffixes are removed, in the order
    of the source; then the name is the part after the last underscore,
    or the part before it when the last part is a number and there are
    at least three parts. A name without underscore is kept whole. *)
Definition _extract_action_name (filename : string) : string :=
  let filename := PyStr.replace_all "_poses_60_jpos.npz" ""
                    (PyStr.replace_all "_poses_120_jpos.npz" "" filename) in
  let filename := PyStr.replace_all "_c3d_poses_60_jpos.npz" ""
                    (PyStr.replace_all "_c3d_poses_120_jpos.npz" "" filename) in
  let parts := PyStr.split_on "_" filename in
  if decide (2 <= length parts) then
    let potential_action := List.last parts "" in
    if PyStr.isdigit potential_action then
      if decide (3 <= length parts)
      then nth (length parts - 2) parts ""
      else potential_action
    else potential_action
  else filename.

(** [_show_action_statistics]: one line per non-empty category, with its
    share of [file_count]; the division raises on a zero count. *)
Definition _show_action_statistics (info : action_info) : result (list analysis_event) :=
  foldM (fun out cat =>
           match cat.2 with
           | [] => Ok out
           | _ :: _ =>
               match file_count info with
               | O => Raise ZeroDivisionError
               | S _ =>
                   Ok (out ++ [CategoryStat cat.1 (length cat.2)
                                 (Qred (inject_Z (Z.of_nat (length cat.2))
                                        / inject_Z (Z.of_nat (file_count info))
                                        * 100))])
               end
           end)
        [] (categories info).

(** [_show_action_examples]: for every non-empty category other than
    [unknown], its first three files with their action names; then the
    first five files of [unknown]. *)
Definition _show_action_examples (info : action_info) : list analysis_event :=
  flat_map (fun cat =>
    match cat.2 with
    | [] => []
    | _ :: _ =>
        if decide (cat.1 = "unknown") then []
        else
          CategoryExamples cat.1 ::
          map (fun file_path =>
                 ExampleAction (_extract_action_name (path_name file_path))
                               (path_name file_path))
              (take 3 cat.2) ++
          (if decide (3 < length cat.2) then [ExampleMore (length cat.2 - 3)] else [])
    end) (categories info) ++
  match default [] (dict_get "unknown" (categories info)) with
  | [] => []
  | unknown =>
      UnknownExamples ::
      map (fun file_path => UnknownFile (path_name file_path)) (take 5 unknown) ++
      (if decide (5 < length unknown) then [ExampleMore (length unknown - 5)] else [])
  end.

(** The [*.npz] files of the sub-directories of a dataset directory, as
    [analyze_dataset_actions] collects them. *)
Definition dataset_npz_files (dataset_name : string) (dentries : list (string * node))
    : list path :=
  flat_map (fun subject =>
    match subject.2 with
    | Dir sentries => map (fun f => [dataset_name; subject.1; f.1]) (glob_npz sentries)
    | File _ _ => []
    end) dentries.

(** [analyze_dataset_actions]. The name is one path component; the empty
    name stands for the data root itself. [iterdir] raises when the path
    is a file. Output printed before an exception is not kept. *)
Definition analyze_dataset_actions (table : rules) (entries : list (string * node))
    (dataset_name : string) : result (list analysis_event) :=
  let dataset_path :=
    if decide (dataset_name = "") then Some (Dir entries) else child entries dataset_name in
  match dataset_path with
  | None => Ok [AnalysisMissing dataset_name]
  | Some (File _ _) => Raise NotADirectoryError
  | Some (Dir dentries) =>
      let all_files := dataset_npz_files dataset_name dentries in
      let action_info := _extract_action_info table all_files in
      stats ← _show_action_statistics action_info;
      Ok ([AnalysisHeader dataset_name; AnalysisTotalFiles (length all_files)]
          ++ stats ++ _show_action_examples action_info)
  end.

End ActionAnalyzer.

(** ** The scanner and its queries ([data_explorer.py]) *)

Module AMASSDataExplorer.

Record subject_info := {
  subj_path : path;
  files : list path;
  file_count : nat;
  frames : list Z;
  durations : list Q;
  subj_file_sizes : list Q
}.

Record dataset_info := {
  ds_path : path;
  subjects : dict subject_info;
  total_files : nat;
  total_frames : Z;
  ds_file_sizes : list Q
}.

(** The explorer object while it scans: [self.datasets] and what has
    been printed so far. *)
Record scan_state := {
  datasets : dict dataset_info;
  stdout : list event
}.

(** The body of the [try] block up to the first append: load the file,
    take [fps] and the number of frames, derive the duration and the
    size in MB. Any of the steps may raise. *)
Definition read_motion (n : node) : result (Z * Q * Q) :=
  match n with
  | Dir _ => Raise LoadError
  | File None _ => Raise LoadError
  | File (Some data) st_size =>
      fps ← from_option Ok (Raise (KeyError "fps")) (npz_fps data);
      num_frames ← from_option Ok (Raise (KeyError "body_positions")) (npz_num_frames data);
      duration ← (if Qeq_bool fps 0 then Raise ZeroDivisionError
                  else Ok (Qred (inject_Z num_frames / fps)));
      Ok (num_frames, duration, Qred (inject_Z st_size / inject_Z (1024 * 1024)))
  end.

(** The six appends and increments of a successful read. *)
Definition record_success (subject_name : string) (num_frames : Z)
    (duration file_size : Q) (ds : dataset_info) : dataset_info :=
  {| ds_path := ds_path ds;
     subjects :=
       dict_alter (fun s =>
         {| subj_path := subj_path s;
            files := files s;
            file_count := file_count s;
            frames := frames s ++ [num_frames];
            durations := durations s ++ [duration];
            subj_file_sizes := subj_file_sizes s ++ [file_size] |})
         subject_name (subjects ds);
     total_files := total_files ds + 1;
     total_frames := total_frames ds + num_frames;
     ds_file_sizes := ds_file_sizes ds ++ [file_size] |}.

(** One turn of the loop over [files]: [try] the read and record it,
    [except Exception] print a warning and go on. *)
Definition analyze_file (dataset_name subject_name : string)
    (st : scan_state) (f : string * node) : scan_state :=
  match read_motion f.2 with
  | Ok (num_frames, duration, file_size) =>
      {| datasets :=
           dict_alter (record_success subject_name num_frames duration file_size)
                      dataset_name (datasets st);
         stdout := stdout st |}
  | Raise e =>
      {| datasets := datasets st;
         stdout := stdout st ++ [WarnUnreadable [dataset_name; subject_name; f.1] e] |}
  end.

Definition new_subject (dataset_name subject_name : string)
    (found : list (string * node)) : subject_info :=
  {| subj_path := [dataset_name; subject_name];
     files := map (fun f => [dataset_name; subject_name; f.1]) found;
     file_count := length found;
     frames := [];
     durations := [];
     subj_file_sizes := [] |}.

Definition add_subject (subject_name : string) (s : subject_info)
    (ds : dataset_info) : dataset_info :=
  {| ds_path := ds_path ds;
     subjects := dict_set subject_name s (subjects ds);
     total_files := total_files ds;
     total_frames := total_frames ds;
     ds_file_sizes := ds_file_sizes ds |}.

(** One turn of the loop over the entries of a dataset directory. *)
Definition scan_subject (dataset_name : string)
    (st : scan_state) (subject_dir : string * node) : scan_state :=
  match subject_dir.2 with
  | File _ _ => st
  | Dir entries =>
      let subject_name := subject_dir.1 in
      let found := glob_npz entries in
      match found with
      | [] => st
      | _ :: _ =>
          foldl (analyze_file dataset_name subject_name)
            {| datasets :=
                 dict_alter (add_subject subject_name
                               (new_subject dataset_name subject_name found))
                            dataset_name (datasets st);
               stdout := stdout st |}
            found
      end
  end.

Definition new_dataset (dataset_name : string) : dataset_info :=
  {| ds_path := [dataset_name];
     subjects := [];
     total_files := 0;
     total_frames := 0;
     ds_file_sizes := [] |}.

(** One turn of the loop over the entries of the data root. *)
Definition scan_dataset (st : scan_state) (dataset_dir : string * node) : scan_state :=
  match dataset_dir.2 with
  | File _ _ => st
  | Dir entries =>
      let dataset_name := dataset_dir.1 in
      foldl (scan_subject dataset_name)
        {| datasets := dict_set dataset_name (new_dataset dataset_name) (datasets st);
           stdout := stdout st |}
        entries
  end.

(** [scan_datasets] on a fresh explorer; [root] is what the file system
    holds at [self.data_root], if anything. [iterdir] raises on a
    missing root and on a root that is a file. *)
Definition scan_datasets (root : option node) : result scan_state :=
  match root with
  | None => Raise FileNotFoundError
  | Some (File _ _) => Raise NotADirectoryError
  | Some (Dir entries) =>
      Ok (foldl scan_dataset {| datasets := []; stdout := [ScanBanner] |} entries)
  end.

(** The sequence of indexed files, in the order the nested loops of
    [export_summary_csv] visit the index: dataset, subject, file name. *)
Definition index_entries (ds : dict dataset_info) : list (string * string * string) :=
  flat_map (fun d =>
    flat_map (fun s =>
      map (fun file_path => (d.1, s.1, path_name file_path)) (files s.2))
      (subjects d.2))
    ds.

(** The block printed for one subject by [explore_dataset]. Both means
    go straight to [np.mean]. *)
Definition explore_subject (s : string * subject_info) : list event :=
  let '(mean_duration, duration_warnings) := np_mean (durations s.2) in
  let '(mean_size, size_warnings) := np_mean (subj_file_sizes s.2) in
  [SubjectName s.1;
   SubjectFileCount (file_count s.2);
   SubjectTotalFrames (Zsum (frames s.2))] ++
  map RuntimeWarning duration_warnings ++ [SubjectMeanDuration mean_duration] ++
  map RuntimeWarning size_warnings ++ [SubjectMeanFileSize mean_size] ++
  map (fun file_path => ShownFile (path_name file_path)) (take 3 (files s.2)) ++
  (if decide (3 < length (files s.2))
   then [MoreFiles (length (files s.2) - 3)] else []).

(** [explore_dataset(dataset_name, max_subjects)] *)
Definition explore_dataset (datasets : dict dataset_info)
    (dataset_name : string) (max_subjects : Z) : list event :=
  match dict_get dataset_name datasets with
  | None => [ErrNoDataset dataset_name]
  | Some dataset =>
      DatasetHeader dataset_name ::
      flat_map explore_subject (py_slice_to max_subjects (subjects dataset))
  end.

(** [lo <= duration <= hi], or no range at all. *)
Definition in_range (duration_range : option (npfloat * npfloat)) (duration : Q) : bool :=
  match duration_range with
  | None => true
  | Some (lo, hi) => np_le lo (Num duration) && np_le (Num duration) hi
  end.

(** [l[i]] *)
Definition getitem {A : Type} (l : list A) (i : nat) : result A :=
  from_option Ok (Raise IndexError) (l !! i).

(** The loop over [enumerate(subject_info['durations'])]: the position
    [i] of a duration is used to index [files], [frames] and
    [file_sizes] of the same subject. *)
Definition subject_motions (duration_range : option (npfloat * npfloat))
    (motions : list motion) (s : string * subject_info) : result (list motion) :=
  foldM (fun motions ix =>
           if in_range duration_range ix.2 then
             file_path ← getitem (files s.2) ix.1;
             num_frames ← getitem (frames s.2) ix.1;
             file_size ← getitem (subj_file_sizes s.2) ix.1;
             Ok (motions ++ [ {| m_subject := s.1;
                                 m_file := path_name file_path;
                                 m_duration := ix.2;
                                 m_frames := num_frames;
                                 m_file_size := file_size |} ])
           else Ok motions)
        motions (imap pair (durations s.2)).

Definition duration_leb (a b : motion) : bool :=
  Qle_bool (m_duration a) (m_duration b).

(** [find_similar_motions(dataset_name, duration_range)] *)
Definition find_similar_motions (datasets : dict dataset_info)
    (dataset_name : string) (duration_range : option (npfloat * npfloat))
    : result (list event) :=
  match dict_get dataset_name datasets with
  | None => Ok [ErrNoDataset dataset_name]
  | Some dataset =>
      motions ← foldM (subject_motions duration_range) [] (subjects dataset);
      match motions with
      | [] => Ok [NoMotionFound]
      | _ :: _ =>
          Ok (MotionsFound (length motions) ::
              map MotionRow (py_sorted duration_leb motions))
      end
  end.

(** [x or default] on an optional float argument. *)
Definition py_or (x : option Q) (default : npfloat) : npfloat :=
  match x with
  | Some q => if Qeq_bool q 0 then default else Num q
  | None => default
  end.

(** The range built by [main] for the [find] action from
    [--duration_min] and [--duration_max]. *)
Definition duration_range_of_args (duration_min duration_max : option Q)
    : option (npfloat * npfloat) :=
  match duration_min, duration_max with
  | None, None => None
  | _, _ => Some (py_or duration_min (Num 0), py_or duration_max PInf)
  end.

(** [print_summary]: the totals over the index, then one row per
    dataset in ascending order of the names (the keys of a dict are
    distinct, so the comparison of the items is decided by the names). *)
Definition print_summary (datasets : dict dataset_info) : list summary_event :=
  let total_datasets := length datasets in
  let sum_files := Nsum (map (fun d => total_files d.2) datasets) in
  let sum_frames := Zsum (map (fun d => total_frames d.2) datasets) in
  [SummaryDatasets total_datasets;
   SummaryFiles sum_files;
   SummaryFrames sum_frames;
   SummaryDuration (Qred (inject_Z sum_frames / 120))
                   (Qred (inject_Z sum_frames / 120 / 60))] ++
  map (fun d =>
         SummaryRow d.1 (total_files d.2) (total_frames d.2)
           (if decide (0 < total_files d.2)
            then Qred (inject_Z (total_frames d.2) / 120) else 0%Q))
      (py_sorted (fun a b => String.leb a.1 b.1) datasets).

Record csv_row := {
  row_dataset : string;
  row_subject : string;
  row_filename : string;
  row_filepath : path;
  row_frames : Z;
  row_duration : Q;
  row_file_size_mb : Q;
  row_fps : Z
}.

(** The innermost loop of [export_summary_csv]: one row per file of the
    subject, its metadata taken at the position of the file. *)
Definition export_subject (dataset_name : string) (data : list csv_row)
    (s : string * subject_info) : result (list csv_row) :=
  foldM (fun data ix =>
           num_frames ← getitem (frames s.2) ix.1;
           duration ← getitem (durations s.2) ix.1;
           file_size ← getitem (subj_file_sizes s.2) ix.1;
           Ok (data ++ [ {| row_dataset := dataset_name;
                            row_subject := s.1;
                            row_filename := path_name ix.2;
                            row_filepath := ix.2;
                            row_frames := num_frames;
                            row_duration := duration;
                            row_file_size_mb := file_size;
                            row_fps := 120 |} ]))
        data (imap pair (files s.2)).

(** [export_summary_csv]: the rows of the data frame it writes. *)
Definition export_summary_csv (datasets : dict dataset_info) : result (list csv_row) :=
  foldM (fun data d => foldM (export_subject d.1) data (subjects d.2)) [] datasets.

End AMASSDataExplorer.

(** ** Vocabulary of the statements *)

Import ActionAnalyzer AMASSDataExplorer.

(** Some pattern of the list occurs in the name, letter case aside. *)
Definition hits (patterns : list string) (name : string) : Prop :=
  exists pattern, In pattern patterns /\ PyStr.ci_substring pattern name.

(** Every pattern of the table is written in lower case. *)
Definition lowercase_rules (table : rules) : Prop :=
  forall category patterns pattern,
    In (category, patterns) table -> In pattern patterns ->
    PyStr.lower pattern = pattern.

(** The category is declared in the table with a pattern that the code
    finds in the lower-cased name of the file. *)
Definition category_found (table : rules) (category : string) (file_path : path) : Prop :=
  exists patterns, In (category, patterns) table /\
    first_hit patterns (PyStr.lower (path_name file_path)) = true.

(** The file is listed under the category its name classifies to. *)
Definition filed_under (table : rules) (cats : dict (list path)) (file_path : path) : Prop :=
  exists l, dict_get (classify table (path_name file_path)) cats = Some l
            /\ In file_path l.

(** The outcome of reading one file, split into its two cases. *)
Definition read_ok (f : string * node) : option (Z * Q * Q) :=
  match read_motion f.2 with Ok r => Some r | Raise _ => None end.

Definition read_failed (f : string * node) : bool := negb (is_ok (read_motion f.2)).

Definition read_warning (dataset_name subject_name : string) (f : string * node)
    : option event :=
  match read_motion f.2 with
  | Ok _ => None
  | Raise e => Some (WarnUnreadable [dataset_name; subject_name; f.1] e)
  end.

(** The motion files of a subject directory and of a dataset directory,
    in listing order. *)
Definition subject_targets (subject_dir : string * node) : list (string * node) :=
  match subject_dir.2 with
  | Dir entries => glob_npz entries
  | File _ _ => []
  end.

Definition dataset_targets (entries : list (string * node)) : list (string * node) :=
  flat_map subject_targets entries.

(** The record of a subject, told from its files: every file is listed,
    the three metadata lists hold the successful reads only. *)
Definition subject_of (dataset_name subject_name : string)
    (found : list (string * node)) : subject_info :=
  let reads := omap read_ok found in
  {| subj_path := [dataset_name; subject_name];
     files := map (fun f => [dataset_name; subject_name; f.1]) found;
     file_count := length found;
     frames := map (fun r => r.1.1) reads;
     durations := map (fun r => r.1.2) reads;
     subj_file_sizes := map (fun r => r.2) reads |}.

Definition indexed_subjects (dataset_name : string) (entries : list (string * node))
    : list (string * subject_info) :=
  omap (fun s => match subject_targets s with
                 | [] => None
                 | found => Some (s.1, subject_of dataset_name s.1 found)
                 end) entries.

(** The record of a dataset, told from its directory. *)
Definition dataset_of (dataset_name : string) (entries : list (string * node))
    : dataset_info :=
  let reads := omap read_ok (dataset_targets entries) in
  {| ds_path := [dataset_name];
     subjects := dict_set_all (indexed_subjects dataset_name entries) [];
     total_files := length reads;
     total_frames := Zsum (map (fun r => r.1.1) reads);
     ds_file_sizes := map (fun r => r.2) reads |}.

Definition indexed_datasets (entries : list (string * node))
    : list (string * dataset_info) :=
  omap (fun d => match d.2 with
                 | Dir dentries => Some (d.1, dataset_of d.1 dentries)
                 | File _ _ => None
                 end) entries.

(** The warnings a scan prints: one per file that cannot be read. *)
Definition dataset_warnings (dataset_name : string) (entries : list (string * node))
    : list event :=
  flat_map (fun s => omap (read_warning dataset_name s.1) (subject_targets s)) entries.

Definition scan_warnings (entries : list (string * node)) : list event :=
  flat_map (fun d => match d.2 with
                     | Dir dentries => dataset_warnings d.1 dentries
                     | File _ _ => []
                     end) entries.

(** The motion files below a root, in the order the file system lists
    them: datasets, then subjects, then files. *)
Definition listing_entries (entries : list (string * node))
    : list (string * string * string) :=
  flat_map (fun d =>
    match d.2 with
    | Dir dentries =>
        flat_map (fun s => map (fun f => (d.1, s.1, f.1)) (subject_targets s)) dentries
    | File _ _ => []
    end) entries.


(** No two entries of a directory bear the same name. *)
Definition unique_names (entries : list (string * node)) : Prop :=
  NoDup entries.*1.

(** Dataset, then subject, then file name, each in ascending order. *)
Definition entry_leb (a b : string * string * string) : bool :=
  match String.compare a.1.1 b.1.1 with
  | Lt => true
  | Gt => false
  | Eq => match String.compare a.1.2 b.1.2 with
          | Lt => true
          | Gt => false
          | Eq => String.leb a.2 b.2
          end
  end.

(** *** The scan, one record at a time

    The loops of [scan_datasets] update [self.datasets] in place. The
    same loops on the single record they touch: *)

Definition ds_analyze_file (sn : string) (ds : dataset_info) (f : string * node)
    : dataset_info :=
  match read_motion f.2 with
  | Ok (num_frames, duration, file_size) =>
      record_success sn num_frames duration file_size ds
  | Raise _ => ds
  end.

Definition ds_scan_subject (dn : string) (ds : dataset_info) (s : string * node)
    : dataset_info :=
  match subject_targets s with
  | [] => ds
  | found =>
      foldl (ds_analyze_file s.1) (add_subject s.1 (new_subject dn s.1 found) ds) found
  end.

(** The dataset record once the loop over the files of subject [sn] has
    appended [reads] to the record that started as [s0]. *)
Definition after_files (sn : string) (ds0 : dataset_info) (s0 : subject_info)
    (reads : list (Z * Q * Q)) : dataset_info :=
  {| ds_path := ds_path ds0;
     subjects :=
       dict_set sn
         {| subj_path := subj_path s0; files := files s0; file_count := file_count s0;
            frames := frames s0 ++ map (fun r => r.1.1) reads;
            durations := durations s0 ++ map (fun r => r.1.2) reads;
            subj_file_sizes := subj_file_sizes s0 ++ map (fun r => r.2) reads |}
         (subjects ds0);
     total_files := total_files ds0 + length reads;
     total_frames := total_frames ds0 + Zsum (map (fun r => r.1.1) reads);
     ds_file_sizes := ds_file_sizes ds0 ++ map (fun r => r.2) reads |}.

(** The dataset record once the loop over [entries] has run from [ds]. *)
Definition after_subjects (dn : string) (ds : dataset_info)
    (entries : list (string * node)) : dataset_info :=
  let reads := omap read_ok (dataset_targets entries) in
  {| ds_path := ds_path ds;
     subjects := dict_set_all (indexed_subjects dn entries) (subjects ds);
     total_files := total_files ds + length reads;
     total_frames := total_frames ds + Zsum (map (fun r => r.1.1) reads);
     ds_file_sizes := ds_file_sizes ds ++ map (fun r => r.2) reads |}.

(** *** More vocabulary *)

(** The number of files listed in a grouping. *)
Definition dict_total {A : Type} (d : dict (list A)) : nat :=
  sum_list_with (fun kv => length kv.2) d.

(** Every file of the grouping is one of [files], under its own category. *)
Definition grouped_right (table : rules) (files : list path) (cats : dict (list path)) : Prop :=
  forall category l file_path,
    dict_get category cats = Some l -> In file_path l ->
    category = classify table (path_name file_path) /\ In file_path files.

(** The count of a line of the category statistics. *)
Definition stat_count (ev : analysis_event) : option nat :=
  match ev with CategoryStat _ n _ => Some n | _ => None end.

(** The motion files of the whole archive, in listing order. *)
Definition archive_targets (entries : list (string * node)) : list (string * node) :=
  flat_map (fun d => match d.2 with
                     | Dir dentries => dataset_targets dentries
                     | File _ _ => []
                     end) entries.

(** The dataset named by a row of the summary. *)
Definition summary_row_name (ev : summary_event) : option string :=
  match ev with SummaryRow name _ _ _ => Some name | _ => None end.

(** Where an exported row says its file is. *)
Definition row_key (r : csv_row) : string * string * string :=
  (row_dataset r, row_subject r, row_filename r).

(** Every file of the subject has its three metadata entries. *)
Definition subject_complete (s : subject_info) : Prop :=
  length (files s) <= length (frames s) /\
  length (files s) <= length (durations s) /\
  length (files s) <= length (subj_file_sizes s).

(** The row names a file of the archive and carries what reading that
    file gives. *)
Definition row_of_file (entries : list (string * node)) (r : csv_row) : Prop :=
  exists dentries sentries f,
    In (row_dataset r, Dir dentries) entries /\
    In (row_subject r, Dir sentries) dentries /\
    In f (glob_npz sentries) /\
    row_filename r = f.1 /\
    read_ok f = Some (row_frames r, row_duration r, row_file_size_mb r).

(** The reads whose duration lies within the bounds. *)
Definition reads_in_range (duration_range : option (npfloat * npfloat))
    (reads : list (Z * Q * Q)) : list (Z * Q * Q) :=
  filter (fun r => in_range duration_range r.1.2 = true) reads.

(** The subject a printed line names, the row a printed line shows. *)
Definition shown_subject (ev : event) : option string :=
  match ev with SubjectName name => Some name | _ => None end.

Definition found_row (ev : event) : option (string * path) :=
  match ev with FoundRow dataset file_path => Some (dataset, file_path) | _ => None end.

(** A turn of a loop that goes through whatever was accumulated, and one
    that raises [e] whatever was accumulated. *)
Definition step_succeeds {X S : Type} (step : S -> X -> result S) (x : X) : Prop :=
  forall acc, exists acc', step acc x = Ok acc'.

Definition step_raises {X S : Type} (step : S -> X -> result S) (e : exn) (x : X) : Prop :=
  forall acc, step acc x = Raise e.

(** One turn of the innermost loop of [export_summary_csv]. *)
Definition export_row (dn : string) (s : string * subject_info)
    (data : list csv_row) (ix : nat * path) : result (list csv_row) :=
  num_frames ← getitem (frames s.2) ix.1;
  duration ← getitem (durations s.2) ix.1;
  file_size ← getitem (subj_file_sizes s.2) ix.1;
  Ok (data ++ [ {| row_dataset := dn; row_subject := s.1;
                   row_filename := path_name ix.2; row_filepath := ix.2;
                   row_frames := num_frames; row_duration := duration;
                   row_file_size_mb := file_size; row_fps := 120 |} ]).

(** One turn of the loop of [find_similar_motions] over the durations of
    a subject. *)
Definition motion_step (duration_range : option (npfloat * npfloat))
    (s : string * subject_info) (motions : list motion)
    (ix : nat * Q) : result (list motion) :=
  if in_range duration_range ix.2 then
    file_path ← getitem (files s.2) ix.1;
    num_frames ← getitem (frames s.2) ix.1;
    file_size ← getitem (subj_file_sizes s.2) ix.1;
    Ok (motions ++ [ {| m_subject := s.1; m_file := path_name file_path;
                        m_duration := ix.2; m_frames := num_frames;
                        m_file_size := file_size |} ])
  else Ok motions.

(** ** Sample archives *)

Definition ok_file (num_frames : Z) (fps : Q) (st_size : Z) : node :=
  File (Some {| npz_fps := Some fps; npz_num_frames := Some num_frames |}) st_size.

Definition corrupt_file (st_size : Z) : node := File None st_size.

(** One subject, two files, the first of which cannot be read. *)
Definition root_fail_first : node :=
  Dir [("ds", Dir [("s1", Dir [("a.npz", corrupt_file 1048576);
                               ("b.npz", ok_file 10 5 1048576)])])].

(** The same two names, the second of which cannot be read. *)
Definition root_fail_second : node :=
  Dir [("ds", Dir [("s1", Dir [("a.npz", ok_file 10 5 1048576);
                               ("b.npz", corrupt_file 1048576)])])].

(** Five readable files and two corrupt ones. *)
Definition root_five_two : node :=
  Dir [("ds", Dir [("s1", Dir [("f1.npz", ok_file 120 120 1048576);
                               ("f2.npz", corrupt_file 10);
                               ("f3.npz", ok_file 240 120 1048576);
                               ("f4.npz", ok_file 360 120 1048576);
                               ("f5.npz", corrupt_file 20);
                               ("f6.npz", ok_file 480 120 1048576);
                               ("f7.npz", ok_file 600 120 1048576)])])].

(** A root whose listing gives dataset [b] before dataset [a]. *)
Definition root_unsorted : node :=
  Dir [("b", Dir [("s", Dir [("x.npz", ok_file 10 5 1048576)])]);
       ("a", Dir [("s", Dir [("x.npz", ok_file 10 5 1048576)])])].

(** A subject none of whose files can be read. *)
Definition root_all_corrupt : node :=
  Dir [("ds", Dir [("s1", Dir [("a.npz", corrupt_file 1048576)])])].

(** A root with one populated dataset and one empty dataset. *)
Definition archive_with_empty_dataset : list (string * node) :=
  [("CMU", Dir [("01", Dir [("walk_01.npz", ok_file 10 5 1048576)])]);
   ("empty", Dir [])].

(** Ten files of one kind. *)
Definition ten_walks : list path := replicate 10 ["CMU"; "01"; "walk_01.npz"].

(** A dataset of three subjects, the last of which cannot be read. *)
Definition root_three_subjects : node :=
  Dir [("ds", Dir [("s1", Dir [("a.npz", ok_file 10 5 1048576)]);
                   ("s2", Dir [("b.npz", ok_file 20 5 1048576)]);
                   ("s3", Dir [("c.npz", corrupt_file 7)])])].

(** * Properties *)

(** ** Strings *)

Section PyStrFacts.
Import PyStr.

Lemma startswith_spec (p s : string) :
  startswith p s = true <-> exists post, s = p +:+ post.
Proof.
  revert s. induction p as [|a p IH]; intros s; simpl.
  - split; [intros _; by exists s | done].
  - destruct s as [|b s].
    + split; [done | intros [post H]; discriminate H].
    + destruct (ascii_dec a b) as [->|Hne].
      * rewrite IH. split; intros [post H]; exists post.
        -- by rewrite H.
        -- by injection H.
      * split; [done | intros [post H]; injection H; congruence].
Qed.

Lemma contains_spec (p s : string) :
  contains p s = true <-> is_substring p s.
Proof.
  induction s as [|b s IH]; simpl.
  - rewrite orb_false_r, startswith_spec. split.
    + intros [post H]. by exists "", post.
    + intros [pre [post H]]. destruct pre; [by exists post|discriminate H].
  - rewrite orb_true_iff, IH, startswith_spec. split.
    + intros [[post H]|[pre [post H]]].
      * by exists "", post.
      * exists (String b pre), post. simpl. by rewrite H.
    + intros [pre [post H]]. destruct pre as [|c pre]; simpl in H.
      * left. by exists post.
      * right. injection H as _ H. by exists pre, post.
Qed.

Lemma lower_ascii_idemp (c : ascii) : lower_ascii (lower_ascii c) = lower_ascii c.
Proof. destruct c as [[] [] [] [] [] [] [] []]; reflexivity. Qed.

Lemma lower_idemp (s : string) : lower (lower s) = lower s.
Proof. induction s; simpl; [done|]. by rewrite lower_ascii_idemp, IHs. Qed.

Lemma lower_app (s t : string) : lower (s +:+ t) = lower s +:+ lower t.
Proof. induction s; simpl; [done|]. by rewrite IHs. Qed.

Lemma length_lower (s : string) : String.length (lower s) = String.length s.
Proof. induction s; simpl; congruence. Qed.

Lemma app_inj_length (s1 s2 t1 t2 : string) :
  String.length s1 = String.length s2 ->
  s1 +:+ t1 = s2 +:+ t2 -> s1 = s2 /\ t1 = t2.
Proof.
  revert s2. induction s1 as [|a s1 IH]; intros [|b s2]; simpl; try done.
  intros [= Hl] [= -> H]. destruct (IH _ Hl H) as [-> ->]. done.
Qed.

(** A piece of a lower-cased string is lower-case itself. *)
Lemma substring_of_lower (p s : string) :
  is_substring p (lower s) -> lower p = p.
Proof.
  intros [pre [post H]].
  pose proof (lower_idemp s) as Hi. rewrite H in Hi.
  rewrite !lower_app in Hi.
  apply app_inj_length in Hi as [_ Hi]; [|apply length_lower].
  apply app_inj_length in Hi as [Hi _]; [done|apply length_lower].
Qed.

Lemma contains_lower_ci (p s : string) :
  contains p (lower s) = true -> ci_substring p s.
Proof.
  rewrite contains_spec. intros H. unfold ci_substring.
  by rewrite (substring_of_lower _ _ H).
Qed.

Lemma ci_contains_lower (p s : string) :
  lower p = p -> ci_substring p s -> contains p (lower s) = true.
Proof. intros Hp H. apply contains_spec. unfold ci_substring in H. by rewrite Hp in H. Qed.
End PyStrFacts.

(** ** Dictionaries *)

Section DictFacts.
Context {V : Type}.
Implicit Types (d : dict V) (k : string).

Lemma dict_get_set_eq k (v : V) d : dict_get k (dict_set k v d) = Some v.
Proof.
  induction d as [|[k' v'] d IH]; simpl.
  - by rewrite decide_True.
  - destruct (decide (k = k')) as [->|Hne]; simpl.
    + by rewrite decide_True.
    + by rewrite decide_False.
Qed.

Lemma dict_get_set_ne k k' (v : V) d :
  k <> k' -> dict_get k' (dict_set k v d) = dict_get k' d.
Proof.
  intros Hne. induction d as [|[k0 v0] d IH]; simpl.
  - by rewrite decide_False.
  - destruct (decide (k = k0)) as [->|Hne0]; simpl.
    + by rewrite !decide_False.
    + destruct (decide (k' = k0)); auto.
Qed.

Lemma dict_get_alter_eq (f : V -> V) k d :
  dict_get k (dict_alter f k d) = f <$> dict_get k d.
Proof.
  induction d as [|[k' v'] d IH]; simpl; [done|].
  destruct (decide (k = k')) as [->|Hne]; simpl.
  - by rewrite decide_True.
  - by rewrite decide_False.
Qed.

Lemma dict_get_alter_ne (f : V -> V) k k' d :
  k <> k' -> dict_get k' (dict_alter f k d) = dict_get k' d.
Proof.
  intros Hne. induction d as [|[k0 v0] d IH]; simpl; [done|].
  destruct (decide (k = k0)) as [->|Hne0]; simpl.
  - by rewrite !decide_False.
  - destruct (decide (k' = k0)); auto.
Qed.

Lemma dict_keys_alter (f : V -> V) k d : dict_keys (dict_alter f k d) = dict_keys d.
Proof.
  unfold dict_keys. induction d as [|[k' v'] d IH]; csimpl; [done|].
  destruct (decide (k = k')); csimpl; [done | by rewrite IH].
Qed.

(** Mutating the value just stored is storing the mutated value. *)
Lemma dict_alter_set (f : V -> V) k (v : V) d :
  dict_alter f k (dict_set k v d) = dict_set k (f v) d.
Proof.
  induction d as [|[k' v'] d IH]; simpl.
  - by rewrite decide_True.
  - destruct (decide (k = k')) as [->|Hne]; simpl.
    + by rewrite decide_True.
    + rewrite decide_False by done. by rewrite IH.
Qed.

Lemma dict_alter_alter (f g : V -> V) k d :
  dict_alter g k (dict_alter f k d) = dict_alter (g ∘ f) k d.
Proof.
  induction d as [|[k' v'] d IH]; simpl; [done|].
  destruct (decide (k = k')) as [->|Hne]; simpl.
  - by rewrite decide_True.
  - rewrite decide_False by done. by rewrite IH.
Qed.

Lemma dict_get_None_keys k d : dict_get k d = None <-> ~ In k (dict_keys d).
Proof.
  unfold dict_keys. induction d as [|[k' v'] d IH]; simpl; [tauto|].
  destruct (decide (k = k')) as [->|Hne].
  - split; [done | tauto].
  - rewrite IH. split; [intros H [?|?]; [congruence | tauto] | tauto].
Qed.

Lemma dict_get_Some_In k (v : V) d : dict_get k d = Some v -> In (k, v) d.
Proof.
  induction d as [|[k' v'] d IH]; simpl; [done|].
  destruct (decide (k = k')) as [->|Hne]; [intros [= ->]; by left | auto].
Qed.

(** Storing under a key that is not there yet appends. *)
Lemma dict_set_fresh k (v : V) d :
  ~ In k (dict_keys d) -> dict_set k v d = d ++ [(k, v)].
Proof.
  unfold dict_keys. induction d as [|[k' v'] d IH]; simpl; [done|].
  intros H. destruct (decide (k = k')) as [->|Hne]; [tauto|].
  rewrite IH; [done | tauto].
Qed.
End DictFacts.

Section DictAppendFacts.
Context {A : Type}.
Implicit Types (d : dict (list A)) (k : string).

Lemma dict_get_app {V : Type} k (d1 d2 : dict V) :
  dict_get k (d1 ++ d2) =
  match dict_get k d1 with Some v => Some v | None => dict_get k d2 end.
Proof.
  induction d1 as [|[k' v'] d1 IH]; simpl; [done|].
  by destruct (decide (k = k')).
Qed.

Lemma dict_get_append_eq k (x : A) d :
  dict_get k (dict_append k x d) = Some (default [] (dict_get k d) ++ [x]).
Proof.
  unfold dict_append, dict_mem. case_bool_decide as H.
  - destruct H as [l Hl]. by rewrite dict_get_alter_eq, Hl.
  - apply eq_None_not_Some in H. rewrite dict_get_app, H. simpl.
    by rewrite decide_True.
Qed.

Lemma dict_get_append_ne k k' (x : A) d :
  k <> k' -> dict_get k' (dict_append k x d) = dict_get k' d.
Proof.
  intros Hne. unfold dict_append. destruct (dict_mem k d).
  - by apply dict_get_alter_ne.
  - rewrite dict_get_app. destruct (dict_get k' d); [done|].
    simpl. by rewrite decide_False.
Qed.

Lemma dict_keys_append k (x : A) d k' :
  In k' (dict_keys (dict_append k x d)) -> k' = k \/ In k' (dict_keys d).
Proof.
  unfold dict_append. destruct (dict_mem k d).
  - rewrite dict_keys_alter. auto.
  - unfold dict_keys. rewrite fmap_app, in_app_iff. simpl. intuition.
Qed.
End DictAppendFacts.

Section DictSetAllFacts.
Context {V : Type}.
Implicit Types (d : dict V) (k : string).

Lemma In_dict_set k k' (v v' : V) d :
  In (k, v) (dict_set k' v' d) -> (k, v) = (k', v') \/ In (k, v) d.
Proof.
  induction d as [|[k0 v0] d IH]; simpl.
  - intros [[= -> ->]|[]]. by left.
  - destruct (decide (k' = k0)) as [->|Hne]; simpl.
    + intros [[= -> ->]|H]; auto.
    + intros [H|H]; [right; by left|].
      apply IH in H as [?|?]; [by left | right; by right].
Qed.

Lemma In_dict_set_all k (v : V) (kvs : list (string * V)) d :
  In (k, v) (dict_set_all kvs d) -> In (k, v) kvs \/ In (k, v) d.
Proof.
  unfold dict_set_all. revert d. induction kvs as [|[k' v'] kvs IH]; intros d; simpl.
  - auto.
  - intros H. apply IH in H as [H|H]; [auto|].
    apply In_dict_set in H as [H|H]; auto.
Qed.

Lemma dict_set_all_fresh (kvs : list (string * V)) d :
  NoDup (dict_keys d ++ kvs.*1) -> dict_set_all kvs d = d ++ kvs.
Proof.
  unfold dict_set_all. revert d. induction kvs as [|[k v] kvs IH]; intros d; simpl.
  - intros _. by rewrite app_nil_r.
  - intros Hnd. assert (~ In k (dict_keys d)) as Hk.
    { apply NoDup_app in Hnd as (_ & Hd & _). intros Hin%list_elem_of_In.
      apply (Hd k Hin). csimpl. left. }
    rewrite dict_set_fresh by done. rewrite IH.
    + by rewrite <- app_assoc.
    + unfold dict_keys in *. rewrite fmap_app. csimpl.
      rewrite <- app_assoc. simpl. done.
Qed.
End DictSetAllFacts.

(** ** Sorting *)

Section SortedFacts.
Context {A : Type} (leb : A -> A -> bool).
Hypothesis leb_total : forall a b, leb a b = true \/ leb b a = true.

Lemma py_insert_Permutation (x : A) (l : list A) : py_insert leb x l ≡ₚ x :: l.
Proof.
  induction l as [|y l IH]; simpl; [done|].
  destruct (leb x y); [done|]. rewrite IH. apply Permutation_swap.
Qed.

Lemma py_sorted_Permutation (l : list A) : py_sorted leb l ≡ₚ l.
Proof.
  induction l as [|x l IH]; simpl; [done|].
  rewrite py_insert_Permutation. by rewrite IH.
Qed.

Lemma py_insert_Sorted (x : A) (l : list A) :
  Sorted (fun a b => leb a b = true) l ->
  Sorted (fun a b => leb a b = true) (py_insert leb x l).
Proof.
  induction l as [|y l IH]; simpl; intros Hs.
  - repeat constructor.
  - destruct (leb x y) eqn:E.
    + constructor; [done|]. by constructor.
    + apply Sorted_inv in Hs as [Hs Hhd]. constructor; [by apply IH|].
      destruct l as [|z l]; simpl.
      * constructor. destruct (leb_total x y); congruence.
      * destruct (leb x z).
        -- constructor. destruct (leb_total x y); congruence.
        -- constructor. by apply HdRel_inv in Hhd.
Qed.


Lemma py_sorted_Sorted (l : list A) : Sorted (fun a b => leb a b = true) (py_sorted leb l).
Proof.
  induction l as [|x l IH]; simpl; [constructor|]. by apply py_insert_Sorted.
Qed.
End SortedFacts.

(** ** The classifier *)

Section ClassifierFacts.

Lemma first_hit_true (patterns : list string) (filename : string) :
  first_hit patterns filename = true <->
  exists pattern, In pattern patterns /\ PyStr.contains pattern filename = true.
Proof.
  induction patterns as [|p ps IH]; simpl.
  - split; [done | intros [? [[] _]]].
  - destruct (PyStr.contains p filename) eqn:Hp.
    + split; [intros _; exists p; auto | done].
    + rewrite IH. split.
      * intros [q [Hq Hc]]. exists q. auto.
      * intros [q [[->|Hq] Hc]]; [congruence | by exists q].
Qed.

Lemma first_hit_hits (patterns : list string) (name : string) :
  first_hit patterns (PyStr.lower name) = true -> hits patterns name.
Proof.
  rewrite first_hit_true. intros [p [Hp Hc]]. exists p.
  split; [done | by apply contains_lower_ci].
Qed.

Lemma hits_first_hit (patterns : list string) (name : string) :
  (forall pattern, In pattern patterns -> PyStr.lower pattern = pattern) ->
  hits patterns name -> first_hit patterns (PyStr.lower name) = true.
Proof.
  intros Hlow [p [Hp Hc]]. apply first_hit_true. exists p.
  split; [done | apply ci_contains_lower; auto].
Qed.

Lemma categorize_Some (table : rules) (filename category : string) :
  categorize table filename = Some category <->
  exists pre patterns post,
    table = pre ++ (category, patterns) :: post /\
    first_hit patterns filename = true /\
    Forall (fun rule => first_hit rule.2 filename = false) pre.
Proof.
  induction table as [|[c ps] table IH]; simpl.
  - split; [done|]. intros (pre & ? & ? & H & _). by destruct pre.
  - destruct (first_hit ps filename) eqn:Hps.
    + split.
      * intros [= <-]. exists [], ps, table. auto.
      * intros (pre & ps' & post & H & Hh & Hpre).
        destruct pre as [|r pre]; simpl in H.
        -- by injection H as -> _ _.
        -- injection H as <- _. apply Forall_cons in Hpre as [Hr _].
           simpl in Hr. congruence.
    + rewrite IH. split.
      * intros (pre & ps' & post & -> & Hh & Hpre).
        exists ((c, ps) :: pre), ps', post. repeat split; auto.
      * intros (pre & ps' & post & H & Hh & Hpre).
        destruct pre as [|r pre]; simpl in H.
        -- injection H as _ <- _. congruence.
        -- injection H as _ ->. apply Forall_cons in Hpre as [_ Hpre].
           by exists pre, ps', post.
Qed.

Lemma categorize_None (table : rules) (filename : string) :
  categorize table filename = None <->
  Forall (fun rule => first_hit rule.2 filename = false) table.
Proof.
  induction table as [|[c ps] table IH]; simpl.
  - split; auto.
  - destruct (first_hit ps filename) eqn:Hps.
    + split; [done|]. intros [H _]%Forall_cons. simpl in H. congruence.
    + rewrite IH. split; [by constructor | by intros [_ ?]%Forall_cons].
Qed.

Lemma categorize_label (table : rules) (filename category : string) :
  categorize table filename = Some category -> In category table.*1.
Proof.
  rewrite categorize_Some. intros (pre & ps & post & -> & _).
  rewrite fmap_app, in_app_iff. right. by left.
Qed.

(** With lower-case patterns, a miss of the code is a miss. *)
Lemma no_hit_no_hits (patterns : list string) (name : string) :
  (forall pattern, In pattern patterns -> PyStr.lower pattern = pattern) ->
  first_hit patterns (PyStr.lower name) = false -> ~ hits patterns name.
Proof.
  intros Hlow Hmiss Hh. apply hits_first_hit in Hh; [congruence | done].
Qed.

(** The patterns of the script are all in lower case. *)
Lemma action_patterns_lowercase : lowercase_rules action_patterns.
Proof.
  intros c ps p Hc Hp. unfold action_patterns in Hc. simpl in Hc.
  repeat (destruct Hc as [[= <- <-]|Hc];
          [simpl in Hp; repeat (destruct Hp as [<-|Hp]; [reflexivity|]); destruct Hp|]).
  destruct Hc.
Qed.
End ClassifierFacts.

(** C2. The table is walked in declaration order and the answer is the
    first category one of whose patterns occurs in the name, letter case
    aside: if the table splits as [pre ++ (category, patterns) :: post],
    some pattern of [patterns] occurs in the name and no category of
    [pre] has such a pattern, the name is classified as [category]. The
    name is lower-cased by the code, the patterns are not: they are
    written in lower case, as those of the script are. *)
Theorem classify_first_declared_match (table : rules) (name : string)
    (pre post : rules) (category : string) (patterns : list string) :
  lowercase_rules table ->
  table = pre ++ (category, patterns) :: post ->
  hits patterns name ->
  (forall c ps, In (c, ps) pre -> ~ hits ps name) ->
  classify table name = category.
Proof.
  intros Hlow -> Hhit Hpre. unfold classify.
  assert (categorize (pre ++ (category, patterns) :: post) (PyStr.lower name)
          = Some category) as ->; [|done].
  apply categorize_Some. exists pre, patterns, post. repeat split.
  - apply hits_first_hit; [|done]. intros p Hp.
    apply (Hlow category patterns); [|done]. rewrite in_app_iff. right. by left.
  - apply Forall_forall. intros [c ps] Hin%list_elem_of_In. simpl.
    destruct (first_hit ps (PyStr.lower name)) eqn:E; [|done].
    exfalso. apply (Hpre c ps Hin). by apply first_hit_hits.
Qed.

(** With the categories [A: x] and [B: xy] declared in this order, the
    file [xy_clip.npz] goes to [A]. *)
Lemma classify_first_declared_match_witness :
  classify [("A", ["x"]); ("B", ["xy"])] "xy_clip.npz" = "A".
Proof.
  apply (classify_first_declared_match _ _ [] [("B", ["xy"])] "A" ["x"]).
  - intros c ps p Hc Hp. simpl in Hc.
    destruct Hc as [[= <- <-]|[[= <- <-]|[]]]; simpl in Hp;
      destruct Hp as [<-|[]]; reflexivity.
  - reflexivity.
  - exists "x". split; [by left|]. by exists "", "y_clip.npz".
  - intros c ps [].
Defined.

Section ExtractFacts.
Variable table : rules.

Lemma extract_step_keeps cats file_path other :
  filed_under table cats other ->
  filed_under table (dict_append (classify table (path_name file_path)) file_path cats) other.
Proof.
  intros [l [Hl Hin]]. unfold filed_under.
  destruct (decide (classify table (path_name file_path)
                    = classify table (path_name other))) as [E|E].
  - rewrite <- E, dict_get_append_eq. rewrite E, Hl. simpl.
    eexists; split; [done|]. rewrite in_app_iff. auto.
  - rewrite dict_get_append_ne by done. eauto.
Qed.

Lemma extract_fold_files (files : list path) cats :
  forall file_path,
    In file_path files \/ filed_under table cats file_path ->
    filed_under table
      (foldl (fun cats file_path =>
                dict_append (classify table (path_name file_path)) file_path cats)
             cats files) file_path.
Proof.
  revert cats. induction files as [|f files IH]; intros cats fp; simpl.
  - intros [[]|H]; done.
  - intros [[->|Hin]|H]; apply IH; auto.
    + right. unfold filed_under. rewrite dict_get_append_eq.
      eexists; split; [done|]. rewrite in_app_iff. right. by left.
    + right. by apply extract_step_keeps.
Qed.

Lemma extract_fold_keys (files : list path) cats k :
  In k (dict_keys
          (foldl (fun cats file_path =>
                    dict_append (classify table (path_name file_path)) file_path cats)
                 cats files)) ->
  In k (dict_keys cats) \/ exists file_path,
    In file_path files /\ k = classify table (path_name file_path).
Proof.
  revert cats. induction files as [|f files IH]; intros cats; simpl; [auto|].
  intros H. apply IH in H as [H|[fp [Hin ->]]]; [|eauto].
  apply dict_keys_append in H as [->|H]; eauto.
Qed.
End ExtractFacts.

(** C7. A name in which no pattern of any category occurs, letter case
    aside, is classified as ["unknown"]; whatever the name, the answer is
    ["unknown"] or a category of the table; and in the grouping built by
    [_extract_action_info] every file is listed under the category of
    its name and every key is ["unknown"] or a category of the table. *)
Theorem classify_unknown_when_no_match (table : rules) (name : string) :
  ((forall category patterns, In (category, patterns) table -> ~ hits patterns name) ->
   classify table name = "unknown")
  /\ (classify table name = "unknown" \/ In (classify table name) table.*1)
  /\ (forall files key,
        In key (dict_keys (categories (_extract_action_info table files))) ->
        key = "unknown" \/ In key table.*1)
  /\ (forall files file_path,
        In file_path files ->
        filed_under table (categories (_extract_action_info table files)) file_path).
Proof.
  assert (forall n, classify table n = "unknown" \/ In (classify table n) table.*1) as Hlabel.
  { intros n. unfold classify.
    destruct (categorize table (PyStr.lower n)) as [c|] eqn:E; [|by left].
    right. by eapply categorize_label. }
  split; [|split; [|split]].
  - unfold classify. intros Hno.
    destruct (categorize table (PyStr.lower name)) as [c|] eqn:E; [|done].
    exfalso. apply categorize_Some in E as (pre & ps & post & -> & Hh & _).
    apply (Hno c ps); [|by apply first_hit_hits].
    rewrite in_app_iff. right. by left.
  - apply Hlabel.
  - intros files key Hkey. simpl in Hkey.
    apply extract_fold_keys in Hkey as [[]|(fp & _ & ->)]. apply Hlabel.
  - intros files fp Hin. simpl. apply extract_fold_files. by left.
Qed.

(** No pattern of [A: x], [B: xy] occurs in [clip.npz]. *)
Lemma classify_unknown_when_no_match_witness :
  classify [("A", ["x"]); ("B", ["xy"])] "clip.npz" = "unknown".
Proof.
  apply (classify_unknown_when_no_match [("A", ["x"]); ("B", ["xy"])] "clip.npz").
  intros c ps Hin. simpl in Hin.
  destruct Hin as [[= <- <-]|[[= <- <-]|[]]];
    (apply no_hit_no_hits; [|reflexivity]);
    intros p [<-|[]]; reflexivity.
Defined.

(** ** The sampled overview *)

Section SampleFacts.
Variable table : rules.

Lemma sample_inner (rules_left : rules) (filename : string)
    (acc : gset string) (c : string) :
  c ∈ foldl (fun action_types rule =>
               if first_hit rule.2 filename
               then action_types ∪ {[ rule.1 ]} else action_types)
            acc rules_left
  <-> c ∈ acc \/ exists patterns, In (c, patterns) rules_left /\
                  first_hit patterns filename = true.
Proof.
  revert acc. induction rules_left as [|[c' ps] rest IH]; intros acc; simpl.
  - split; [auto | intros [?|(? & [] & _)]; done].
  - rewrite IH. destruct (first_hit ps filename) eqn:E; simpl.
    + rewrite elem_of_union, elem_of_singleton. split.
      * intros [[?| ->]|(ps' & Hin & Hh)]; eauto 6.
      * intros [?|(ps' & [[= <- <-]|Hin] & Hh)]; eauto 6.
    + split.
      * intros [?|(ps' & Hin & Hh)]; eauto 6.
      * intros [?|(ps' & [[= <- <-]|Hin] & Hh)]; [auto | congruence | eauto 6].
Qed.

Lemma sample_outer (files : list path) (acc : gset string) (c : string) :
  c ∈ foldl (fun action_types file_path =>
               let filename := PyStr.lower (path_name file_path) in
               foldl (fun action_types rule =>
                        if first_hit rule.2 filename
                        then action_types ∪ {[ rule.1 ]} else action_types)
                     action_types table)
            acc files
  <-> c ∈ acc \/ exists file_path, In file_path files /\ category_found table c file_path.
Proof.
  revert acc. induction files as [|f files IH]; intros acc; simpl.
  - split; [auto | intros [?|(? & [] & _)]; done].
  - rewrite IH, sample_inner. unfold category_found. split.
    + intros [[?|H]|(fp & Hin & H)]; eauto 6.
    + intros [?|(fp & [->|Hin] & H)]; eauto 6.
Qed.

Lemma sample_first_spec (sample_size : nat) (files : list path) (c : string) :
  c ∈ sample_first sample_size table files
  <-> exists file_path, In file_path (take sample_size files)
                        /\ category_found table c file_path.
Proof.
  unfold sample_first. rewrite sample_outer. split; [|auto].
  intros [H|H]; [set_solver | done].
Qed.

(** Every row of the overview shows the sample of the files found below
    its dataset. *)
Lemma overview_rows_are_samples (entries : list (string * node))
    (dataset : string) (n_files : nat) (action_types : list string) :
  In (OverviewRow dataset n_files action_types)
     (list_all_datasets_actions table entries) ->
  let files := from_option (rglob_npz [dataset]) [] (child entries dataset) in
  n_files = length files /\
  action_types = py_sorted String.leb (elements (sample_action_types table files)).
Proof.
  unfold list_all_datasets_actions. intros [H|H]; [discriminate H|].
  apply in_flat_map in H as (d & _ & H).
  destruct (from_option (rglob_npz [d]) [] (child entries d)) as [|f fs] eqn:E;
    [destruct H|].
  destruct H as [[= <- <- <-]|[]]. simpl. by rewrite E.
Qed.
End SampleFacts.

(** C9. Whatever the bound of the slice, the sampled set depends on the
    files before the bound only, it holds exactly the categories found
    among these, and a category found in later files only is not in it.
    The script fixes the bound at 10. *)
Theorem sample_inspects_prefix_only
    (table : rules) (sample_size : nat) (files : list path) :
  (forall files',
     take sample_size files' = take sample_size files ->
     sample_first sample_size table files' = sample_first sample_size table files)
  /\ (forall category,
        category ∈ sample_first sample_size table files <->
        exists file_path, In file_path (take sample_size files) /\
                          category_found table category file_path)
  /\ (forall later category,
        length files = sample_size ->
        (forall file_path, In file_path files ->
                           ~ category_found table category file_path) ->
        category ∉ sample_first sample_size table (files ++ later))
  /\ sample_action_types table files = sample_first 10 table files.
Proof.
  split; [|split; [|split]].
  - intros files' H. unfold sample_first. by rewrite H.
  - apply sample_first_spec.
  - intros later c Hlen Hno. rewrite sample_first_spec.
    rewrite take_app_length' by done. intros (fp & Hin & Hf). by apply (Hno fp).
  - reflexivity.
Qed.

(** Ten walking files followed by a salsa: the overview of the script
    does not see the dance. *)
Lemma sample_inspects_prefix_only_witness :
  (sample_action_types action_patterns (ten_walks ++ [["CMU"; "02"; "salsa_01.npz"]])
   = sample_action_types action_patterns ten_walks)
  /\ ("dance" ∉ sample_action_types action_patterns
                  (ten_walks ++ [["CMU"; "02"; "salsa_01.npz"]]))
  /\ category_found action_patterns "dance" ["CMU"; "02"; "salsa_01.npz"].
Proof.
  destruct (sample_inspects_prefix_only action_patterns 10 ten_walks) as (H1 & _ & H3 & _).
  split; [|split].
  - apply H1. reflexivity.
  - apply H3; [reflexivity|].
    intros fp Hin (ps & Hps & Hh).
    assert (fp = ["CMU"; "01"; "walk_01.npz"]) as ->.
    { unfold ten_walks in Hin. simpl in Hin. intuition. }
    unfold action_patterns in Hps. simpl in Hps.
    destruct Hps as [[= <-]|Hps]; [vm_compute in Hh; discriminate Hh|].
    repeat (destruct Hps as [Hps|Hps]; [discriminate Hps|]). destruct Hps.
  - exists ["dance"; "flamenco"; "salsa"; "bachata"; "reggaeton";
           "karsilamas"; "zeimpekiko"; "hasapiko"; "maleviziotikos"; "haniotikos"].
    split; [by left | reflexivity].
Defined.

(** C10. The [break] of the overview leaves the pattern loop only: every
    category with a pattern occurring in one of the sampled names is in
    the sampled set, not just the first declared one. The name
    [walk_dance_01.npz] is classified as [dance], and sampled as both
    [dance] and [daily]. *)
Theorem sample_keeps_every_matching_category :
  (forall (table : rules) (files : list path) (file_path : path)
          (category : string) (patterns : list string),
     lowercase_rules table ->
     In file_path (take 10 files) ->
     In (category, patterns) table ->
     hits patterns (path_name file_path) ->
     category ∈ sample_action_types table files)
  /\ classify action_patterns "walk_dance_01.npz" = "dance"
  /\ sample_action_types action_patterns [["CMU"; "01"; "walk_dance_01.npz"]]
     = {[ "dance"; "daily" ]}.
Proof.
  split; [|split].
  - intros table files fp c ps Hlow Hin Hc Hh.
    apply sample_first_spec. exists fp. split; [done|].
    exists ps. split; [done|]. apply hits_first_hit; [|done].
    intros p Hp. by apply (Hlow c ps).
  - reflexivity.
  - vm_compute. reflexivity.
Qed.

(** The category [daily] is sampled from a name that classifies as
    [dance]. *)
Lemma sample_keeps_every_matching_category_witness :
  "daily" ∈ sample_action_types action_patterns [["CMU"; "01"; "walk_dance_01.npz"]].
Proof.
  destruct sample_keeps_every_matching_category as (H & _ & _).
  apply (H action_patterns _ ["CMU"; "01"; "walk_dance_01.npz"] "daily"
           ["walk"; "run"; "jump"; "sit"; "stand"; "reach"; "grab"; "throw"; "catch"]).
  - apply action_patterns_lowercase.
  - by left.
  - simpl. auto.
  - exists "walk". split; [by left|]. by exists "", "_dance_01.npz".
Defined.

(** ** The scan

    The loops of [scan_datasets] thread the whole dictionary; each of them
    amounts to the same loop on the one record it updates, and the record
    a loop ends with is told from the directory it walked. *)

Section ScanFacts.

Lemma dict_alter_ext {V : Type} (f g : V -> V) k (d : dict V) :
  (forall v, f v = g v) -> dict_alter f k d = dict_alter g k d.
Proof.
  intros H. induction d as [|[k' v'] d IH]; simpl; [done|].
  destruct (decide (k = k')); by rewrite ?H, ?IH.
Qed.

Lemma dict_alter_id {V : Type} k (d : dict V) : dict_alter (fun v => v) k d = d.
Proof.
  induction d as [|[k' v'] d IH]; simpl; [done|].
  destruct (decide (k = k')); by rewrite ?IH.
Qed.

Lemma Zsum_from (acc : Z) (l : list Z) : foldl Z.add acc l = (acc + Zsum l)%Z.
Proof.
  unfold Zsum. revert acc. induction l as [|x l IH]; intros acc; simpl.
  - lia.
  - rewrite (IH (acc + x)%Z), (IH (0 + x)%Z). lia.
Qed.

Lemma Zsum_app (l1 l2 : list Z) : Zsum (l1 ++ l2) = (Zsum l1 + Zsum l2)%Z.
Proof. unfold Zsum at 1. rewrite foldl_app. fold (Zsum l1). apply Zsum_from. Qed.

Lemma Zsum_snoc (l : list Z) (x : Z) : Zsum (l ++ [x]) = (Zsum l + x)%Z.
Proof. rewrite Zsum_app. unfold Zsum at 2. simpl. lia. Qed.

(** *** One subject: the loop over its files *)

Lemma ds_analyze_file_after sn ds0 s0 reads f :
  ds_analyze_file sn (after_files sn ds0 s0 reads) f
  = after_files sn ds0 s0 (reads ++ option_list (read_ok f)).
Proof.
  unfold ds_analyze_file, read_ok.
  destruct (read_motion f.2) as [[[n d] s]|e]; simpl.
  - unfold record_success, after_files; simpl.
    rewrite dict_alter_set. simpl.
    rewrite !map_app, !length_app, Zsum_app, !app_assoc. simpl.
    unfold Zsum at 3. simpl. f_equal; lia.
  - by rewrite app_nil_r.
Qed.

Lemma ds_analyze_files_after sn ds0 s0 reads found :
  foldl (ds_analyze_file sn) (after_files sn ds0 s0 reads) found
  = after_files sn ds0 s0 (reads ++ omap read_ok found).
Proof.
  revert reads. induction found as [|f found IH]; intros reads; simpl.
  - by rewrite app_nil_r.
  - rewrite ds_analyze_file_after, IH, <- app_assoc. do 2 f_equal.
    by destruct (read_ok f).
Qed.

Lemma analyze_files_datasets dn sn st found :
  datasets (foldl (analyze_file dn sn) st found)
  = dict_alter (fun ds => foldl (ds_analyze_file sn) ds found) dn (datasets st).
Proof.
  revert st. induction found as [|f found IH]; intros st; simpl.
  - by rewrite dict_alter_id.
  - rewrite IH.
    assert (datasets (analyze_file dn sn st f)
            = dict_alter (fun ds => ds_analyze_file sn ds f) dn (datasets st)) as ->.
    { unfold analyze_file, ds_analyze_file.
      destruct (read_motion f.2) as [[[n d] s]|e]; simpl;
        [done | by rewrite dict_alter_id]. }
    by rewrite dict_alter_alter.
Qed.

Lemma analyze_files_stdout dn sn st found :
  stdout (foldl (analyze_file dn sn) st found)
  = stdout st ++ omap (read_warning dn sn) found.
Proof.
  revert st. induction found as [|f found IH]; intros st; simpl.
  - by rewrite app_nil_r.
  - rewrite IH. unfold analyze_file, read_warning.
    destruct (read_motion f.2) as [[[n d] s]|e]; simpl; [done|].
    by rewrite <- app_assoc.
Qed.

(** *** One dataset: the loop over its subject directories *)

Lemma add_subject_after sn s0 ds :
  add_subject sn s0 ds
  = after_files sn ds
      {| subj_path := subj_path s0; files := files s0; file_count := file_count s0;
         frames := frames s0; durations := durations s0;
         subj_file_sizes := subj_file_sizes s0 |} [].
Proof.
  unfold add_subject, after_files; simpl. rewrite !app_nil_r.
  destruct s0; simpl. f_equal; unfold Zsum; simpl; lia.
Qed.

Lemma ds_scan_subject_step dn ds s :
  ds_scan_subject dn ds s = after_subjects dn ds [s].
Proof.
  unfold ds_scan_subject, after_subjects, indexed_subjects, dataset_targets.
  cbn [flat_map omap]. rewrite app_nil_r. cbv beta.
  destruct (subject_targets s) as [|f found] eqn:E; cbv iota beta.
  - simpl. rewrite E, ?app_nil_r. destruct ds; simpl.
    f_equal; unfold Zsum; simpl; first [done | lia].
  - rewrite add_subject_after, ds_analyze_files_after.
    unfold after_files, subject_of, new_subject. simpl. rewrite E. done.
Qed.

Lemma after_subjects_app dn ds l1 l2 :
  after_subjects dn (after_subjects dn ds l1) l2 = after_subjects dn ds (l1 ++ l2).
Proof.
  unfold after_subjects, indexed_subjects, dataset_targets, dict_set_all; simpl.
  rewrite flat_map_app, !omap_app, !map_app, length_app, Zsum_app, foldl_app, app_assoc.
  f_equal; lia.
Qed.

Lemma ds_scan_subjects dn ds entries :
  foldl (ds_scan_subject dn) ds entries = after_subjects dn ds entries.
Proof.
  revert ds. induction entries as [|s entries IH]; intros ds; simpl.
  - unfold after_subjects; simpl. rewrite app_nil_r.
    destruct ds; simpl. f_equal; unfold Zsum; simpl; lia.
  - rewrite IH, ds_scan_subject_step. apply (after_subjects_app dn ds [s] entries).
Qed.

Lemma scan_subject_datasets dn st s :
  datasets (scan_subject dn st s)
  = dict_alter (fun ds => ds_scan_subject dn ds s) dn (datasets st).
Proof.
  unfold scan_subject, ds_scan_subject, subject_targets.
  destruct s as [sn [payload size|entries]]; simpl.
  - by rewrite dict_alter_id.
  - destruct (glob_npz entries) as [|f found] eqn:E; cbv iota beta.
    + by rewrite dict_alter_id.
    + rewrite analyze_files_datasets. cbn [datasets]. by rewrite dict_alter_alter.
Qed.

Lemma scan_subject_stdout dn st s :
  stdout (scan_subject dn st s)
  = stdout st ++ omap (read_warning dn s.1) (subject_targets s).
Proof.
  unfold scan_subject, subject_targets.
  destruct s as [sn [payload size|entries]]; simpl.
  - by rewrite app_nil_r.
  - destruct (glob_npz entries) as [|f found] eqn:E; cbv iota beta.
    + by rewrite app_nil_r.
    + by rewrite analyze_files_stdout.
Qed.

Lemma scan_subjects_datasets dn st entries :
  datasets (foldl (scan_subject dn) st entries)
  = dict_alter (fun ds => after_subjects dn ds entries) dn (datasets st).
Proof.
  revert st. induction entries as [|s entries IH]; intros st; simpl.
  - rewrite <- (dict_alter_id dn (datasets st)) at 1. apply dict_alter_ext.
    intros ds. by rewrite <- ds_scan_subjects.
  - rewrite IH, scan_subject_datasets, dict_alter_alter. apply dict_alter_ext.
    intros ds. simpl. by rewrite ds_scan_subject_step, after_subjects_app.
Qed.

Lemma scan_subjects_stdout dn st entries :
  stdout (foldl (scan_subject dn) st entries) = stdout st ++ dataset_warnings dn entries.
Proof.
  revert st. induction entries as [|s entries IH]; intros st; simpl.
  - by rewrite app_nil_r.
  - by rewrite IH, scan_subject_stdout, <- app_assoc.
Qed.

(** *** The whole root *)

Lemma after_subjects_new dn entries :
  after_subjects dn (new_dataset dn) entries = dataset_of dn entries.
Proof. unfold after_subjects, dataset_of, new_dataset; simpl. f_equal; lia. Qed.

Lemma scan_dataset_datasets st d :
  datasets (scan_dataset st d)
  = dict_set_all (indexed_datasets [d]) (datasets st).
Proof.
  unfold scan_dataset, indexed_datasets, dict_set_all.
  destruct d as [dn [payload size|entries]]; [done|]. cbn [fst snd].
  rewrite scan_subjects_datasets. cbn [datasets].
  rewrite dict_alter_set, after_subjects_new. reflexivity.
Qed.

Lemma scan_dataset_stdout st d :
  stdout (scan_dataset st d) = stdout st ++ scan_warnings [d].
Proof.
  unfold scan_dataset, scan_warnings.
  destruct d as [dn [payload size|entries]]; simpl.
  - by rewrite app_nil_r.
  - by rewrite scan_subjects_stdout, app_nil_r.
Qed.

Lemma scan_fold_datasets st entries :
  datasets (foldl scan_dataset st entries)
  = dict_set_all (indexed_datasets entries) (datasets st).
Proof.
  revert st. induction entries as [|d entries IH]; intros st; simpl; [done|].
  rewrite IH, scan_dataset_datasets. unfold dict_set_all, indexed_datasets. simpl.
  by destruct d as [dn [payload size|dentries]].
Qed.

Lemma scan_fold_stdout st entries :
  stdout (foldl scan_dataset st entries) = stdout st ++ scan_warnings entries.
Proof.
  revert st. induction entries as [|d entries IH]; intros st; simpl.
  - by rewrite app_nil_r.
  - rewrite IH, scan_dataset_stdout. unfold scan_warnings. simpl.
    by rewrite app_nil_r, <- app_assoc.
Qed.

(** The scan of a directory never raises; its result is the index and
    the warnings computed file by file. *)
Lemma scan_datasets_dir entries :
  exists st, scan_datasets (Some (Dir entries)) = Ok st
    /\ datasets st = dict_set_all (indexed_datasets entries) []
    /\ stdout st = ScanBanner :: scan_warnings entries.
Proof.
  eexists. split; [reflexivity|]. by rewrite scan_fold_datasets, scan_fold_stdout.
Qed.
End ScanFacts.

Section IndexFacts.

Lemma In_indexed_datasets dn info entries :
  In (dn, info) (indexed_datasets entries) ->
  exists dentries, In (dn, Dir dentries) entries /\ info = dataset_of dn dentries.
Proof.
  unfold indexed_datasets. rewrite <- list_elem_of_In, list_elem_of_omap.
  intros ([dn' [payload size|dentries]] & Hin & H); simpl in H; [done|].
  injection H as -> <-. exists dentries. by rewrite <- list_elem_of_In.
Qed.

Lemma In_indexed_subjects dn sn sinfo entries :
  In (sn, sinfo) (indexed_subjects dn entries) ->
  exists sentries, In (sn, Dir sentries) entries /\ glob_npz sentries <> []
                   /\ sinfo = subject_of dn sn (glob_npz sentries).
Proof.
  unfold indexed_subjects. rewrite <- list_elem_of_In, list_elem_of_omap.
  intros ([sn' [payload size|sentries]] & Hin & H); unfold subject_targets in H;
    simpl in H; [done|].
  destruct (glob_npz sentries) as [|f found] eqn:E; [done|].
  injection H as -> <-. exists sentries. rewrite E, <- list_elem_of_In. done.
Qed.

Lemma scanned_dataset entries st dn info :
  scan_datasets (Some (Dir entries)) = Ok st ->
  In (dn, info) (datasets st) ->
  exists dentries, In (dn, Dir dentries) entries /\ info = dataset_of dn dentries.
Proof.
  destruct (scan_datasets_dir entries) as (st' & -> & Hd & _).
  intros [= <-] Hin. rewrite Hd in Hin.
  apply In_dict_set_all in Hin as [Hin|[]]. by apply In_indexed_datasets.
Qed.

Lemma scanned_subject dn dentries sn sinfo :
  In (sn, sinfo) (subjects (dataset_of dn dentries)) ->
  exists sentries, In (sn, Dir sentries) dentries /\ glob_npz sentries <> []
                   /\ sinfo = subject_of dn sn (glob_npz sentries).
Proof.
  simpl. intros Hin. apply In_dict_set_all in Hin as [Hin|[]].
  by apply In_indexed_subjects.
Qed.

Lemma length_reads_failures (found : list (string * node)) :
  length (omap read_ok found) + length (filter (fun f => read_failed f = true) found)
  = length found.
Proof.
  induction found as [|f found IH]; [done|].
  rewrite filter_cons. csimpl.
  destruct (decide (read_failed f = true)) as [Hf|Hf];
    unfold read_failed, is_ok in Hf; unfold read_ok at 1;
    destruct (read_motion f.2); simpl in *; try done; lia.
Qed.
End IndexFacts.

(** C1, as the code has it. A scan of a directory never raises, whatever
    files fail to read. A failure is printed as a warning, one per failing
    file, and leaves no record in the index: each subject lists all its
    motion files, and its frames, durations and sizes are those of the
    files that were read, in order. *)
Theorem scan_survives_read_failures (entries : list (string * node)) :
  exists st,
    scan_datasets (Some (Dir entries)) = Ok st /\
    stdout st = ScanBanner :: scan_warnings entries /\
    forall dataset_name info subject_name sinfo,
      In (dataset_name, info) (datasets st) ->
      In (subject_name, sinfo) (subjects info) ->
      exists dentries sentries,
        In (dataset_name, Dir dentries) entries /\
        In (subject_name, Dir sentries) dentries /\
        sinfo = subject_of dataset_name subject_name (glob_npz sentries).
Proof.
  destruct (scan_datasets_dir entries) as (st & Hscan & Hd & Hout).
  exists st. repeat split; try done.
  intros dn info sn sinfo Hin Hs.
  destruct (scanned_dataset _ _ _ _ Hscan Hin) as (dentries & Hde & ->).
  destruct (scanned_subject _ _ _ _ Hs) as (sentries & Hse & _ & ->).
  by exists dentries, sentries.
Qed.

(** Five readable files and two corrupt ones: seven files listed, five
    records of metadata, two warnings. *)
Example scan_five_valid_two_corrupt :
  exists st info sinfo,
    scan_datasets (Some root_five_two) = Ok st /\
    datasets st = [("ds", info)] /\ subjects info = [("s1", sinfo)] /\
    file_count sinfo = 7 /\ length (files sinfo) = 7 /\
    frames sinfo = [120; 240; 360; 480; 600]%Z /\
    durations sinfo = [1; 2; 3; 4; 5]%Q /\
    total_files info = 5 /\
    stdout st = [ScanBanner;
                 WarnUnreadable ["ds"; "s1"; "f2.npz"] LoadError;
                 WarnUnreadable ["ds"; "s1"; "f5.npz"] LoadError].
Proof. do 3 eexists. repeat split; reflexivity. Qed.

(** C1, as stated, fails: the index keeps no entry for a failure. Two
    archives that differ in which of their two files is corrupt are
    indexed alike, only the printed warnings differ; and with five
    readable files and two corrupt ones the index holds five records,
    not seven. *)
Lemma scan_keeps_no_failure_record :
  exists st1 st2 st info sinfo,
    scan_datasets (Some root_fail_first) = Ok st1 /\
    scan_datasets (Some root_fail_second) = Ok st2 /\
    datasets st1 = datasets st2 /\
    stdout st1 <> stdout st2 /\
    scan_datasets (Some root_five_two) = Ok st /\
    datasets st = [("ds", info)] /\ subjects info = [("s1", sinfo)] /\
    length (frames sinfo) = 5 /\ length (durations sinfo) = 5 /\
    length (subj_file_sizes sinfo) = 5 /\ total_files info = 5.
Proof. do 5 eexists. repeat split; try reflexivity. discriminate. Qed.

(** C3, as the code has it. For every dataset of the index,
    [total_files] is the number of its files that were read and
    [total_frames] the sum of their frame counts: a file that fails to
    read adds nothing to either. *)
Theorem total_files_counts_successful_reads
    (entries : list (string * node)) (st : scan_state)
    (dataset_name : string) (info : dataset_info) :
  scan_datasets (Some (Dir entries)) = Ok st ->
  dict_get dataset_name (datasets st) = Some info ->
  exists dentries,
    In (dataset_name, Dir dentries) entries /\
    total_files info = length (omap read_ok (dataset_targets dentries)) /\
    total_frames info
      = Zsum (map (fun r => r.1.1) (omap read_ok (dataset_targets dentries))) /\
    total_files info
      + length (filter (fun f => read_failed f = true) (dataset_targets dentries))
      = length (dataset_targets dentries).
Proof.
  intros Hscan Hget. apply dict_get_Some_In in Hget.
  destruct (scanned_dataset _ _ _ _ Hscan Hget) as (dentries & Hin & ->).
  exists dentries. repeat split; try done. simpl. apply length_reads_failures.
Qed.

Lemma total_files_counts_successful_reads_witness :
  exists dentries,
    In ("ds", Dir dentries)
       [("ds", Dir [("s1", Dir [("a.npz", corrupt_file 1048576);
                                ("b.npz", ok_file 10 5 1048576)])])] /\
    1 = length (omap read_ok (dataset_targets dentries)) /\
    10%Z = Zsum (map (fun r => r.1.1) (omap read_ok (dataset_targets dentries))) /\
    1 + length (filter (fun f => read_failed f = true) (dataset_targets dentries))
      = length (dataset_targets dentries).
Proof.
  exact (total_files_counts_successful_reads
           [("ds", Dir [("s1", Dir [("a.npz", corrupt_file 1048576);
                                    ("b.npz", ok_file 10 5 1048576)])])]
           _ "ds" _ eq_refl eq_refl).
Defined.

(** C3, as stated, fails: a dataset of two files, one of them corrupt,
    has [total_files] 1. *)
Lemma total_files_skips_failed_reads :
  exists st info dentries,
    scan_datasets (Some root_fail_first) = Ok st /\
    dict_get "ds" (datasets st) = Some info /\
    root_fail_first = Dir [("ds", Dir dentries)] /\
    length (dataset_targets dentries) = 2 /\
    total_files info = 1.
Proof. do 3 eexists. repeat split; reflexivity. Qed.

(** ** The order of the index *)

Section OrderFacts.

Lemma omap_keys_subset {A V : Type} (g : A -> option (string * V)) (key : A -> string)
    (l : list A) :
  (forall x kv, g x = Some kv -> kv.1 = key x) ->
  NoDup (key <$> l) -> NoDup (omap g l).*1.
Proof.
  intros Hg. induction l as [|x l IH]; csimpl; [constructor|].
  intros [Hx Hnd]%NoDup_cons. destruct (g x) as [kv|] eqn:E; csimpl; [|auto].
  apply NoDup_cons. split; [|auto].
  rewrite (Hg _ _ E). intros Hin. apply Hx.
  apply list_elem_of_fmap in Hin as (kv' & Hk & Hin).
  apply list_elem_of_omap in Hin as (y & Hy & Hgy).
  apply list_elem_of_fmap. exists y. split; [|done].
  rewrite Hk. by apply Hg.
Qed.

Lemma indexed_datasets_NoDup entries :
  unique_names entries -> NoDup (indexed_datasets entries).*1.
Proof.
  apply (omap_keys_subset _ fst). intros [dn [p s|des]] kv; simpl; [done|].
  by intros [= <-].
Qed.

Lemma indexed_subjects_NoDup dn entries :
  unique_names entries -> NoDup (indexed_subjects dn entries).*1.
Proof.
  apply (omap_keys_subset _ fst). intros s kv.
  destruct (subject_targets s); [done|]. by intros [= <-].
Qed.

Lemma subject_entries dn sn found :
  map (fun file_path => (dn, sn, path_name file_path)) (files (subject_of dn sn found))
  = map (fun f => (dn, sn, f.1)) found.
Proof. simpl. rewrite map_map. done. Qed.

Lemma dataset_entries dn dentries :
  unique_names dentries ->
  flat_map (fun s => map (fun file_path => (dn, s.1, path_name file_path)) (files s.2))
           (subjects (dataset_of dn dentries))
  = flat_map (fun s => map (fun f => (dn, s.1, f.1)) (subject_targets s)) dentries.
Proof.
  intros Hu. simpl. rewrite dict_set_all_fresh by (by apply indexed_subjects_NoDup).
  simpl. clear Hu. unfold indexed_subjects.
  induction dentries as [|s dentries IH]; [done|]. csimpl.
  destruct (subject_targets s) as [|f found] eqn:E; [done|].
  cbn [flat_map]. rewrite IH. f_equal.
  cbn [fst snd]. apply subject_entries.
Qed.
End OrderFacts.

(** C4, as the code has it. The scan sorts nothing: the files of the
    index come in the order in which the file system lists the datasets,
    the subjects of each dataset and the files of each subject. The scan
    being a function of the listing, two scans of one listing give one
    sequence. *)
Theorem scan_order_is_listing_order (entries : list (string * node)) (st : scan_state) :
  scan_datasets (Some (Dir entries)) = Ok st ->
  unique_names entries ->
  (forall dataset_name dentries,
     In (dataset_name, Dir dentries) entries -> unique_names dentries) ->
  index_entries (datasets st) = listing_entries entries.
Proof.
  destruct (scan_datasets_dir entries) as (st' & -> & Hd & _).
  intros [= <-] Hu Hsub. unfold index_entries. rewrite Hd.
  rewrite dict_set_all_fresh by (by apply indexed_datasets_NoDup).
  simpl. clear Hu Hd. unfold indexed_datasets, listing_entries.
  induction entries as [|[dn [p s|dentries]] entries IH]; [done| |]; csimpl.
  - apply IH. intros dn' des Hin. apply (Hsub dn' des). by right.
  - rewrite IH.
    + f_equal. apply dataset_entries. apply (Hsub dn). by left.
    + intros dn' des Hin. apply (Hsub dn' des). by right.
Qed.

Lemma scan_order_is_listing_order_witness :
  exists st,
    scan_datasets (Some root_unsorted) = Ok st /\
    index_entries (datasets st) = [("b", "s", "x.npz"); ("a", "s", "x.npz")].
Proof.
  eexists. split; [reflexivity|].
  refine (scan_order_is_listing_order _ _ eq_refl _ _).
  - unfold unique_names. by apply (bool_decide_unpack _).
  - intros dn des [[= <- <-]|[[= <- <-]|[]]]; unfold unique_names;
      by apply (bool_decide_unpack _).
Defined.

(** C4, as stated, fails: when the file system lists dataset [b] before
    dataset [a], so does the index. *)
Lemma scan_order_not_sorted :
  exists st,
    scan_datasets (Some root_unsorted) = Ok st /\
    index_entries (datasets st) = [("b", "s", "x.npz"); ("a", "s", "x.npz")] /\
    ~ Sorted (fun a b => entry_leb a b = true) (index_entries (datasets st)).
Proof.
  eexists. split; [reflexivity|]. split; [reflexivity|].
  intros H. vm_compute in H. inversion H as [|? ? _ Hhd]; subst.
  inversion Hhd as [|? ? Hle]; subst. discriminate Hle.
Qed.

(** ** The queries *)

(** C5, as the code has it. For a dataset name that is not in the index,
    [explore_dataset] and [find_similar_motions] print that the dataset
    does not exist and nothing else, which they never print for a dataset
    of the index. [find_specific_action] skips a dataset that is not on
    disk and prints what it prints for a dataset holding no matching
    file. The summary and the sampled overview take no dataset name. *)
Theorem unknown_dataset_reporting
    (datasets : dict dataset_info) (entries : list (string * node))
    (dataset_name keyword : string) (max_subjects : Z)
    (duration_range : option (npfloat * npfloat)) :
  dict_get dataset_name datasets = None ->
  child entries dataset_name = None ->
  dataset_name <> "" ->
  explore_dataset datasets dataset_name max_subjects = [ErrNoDataset dataset_name]
  /\ find_similar_motions datasets dataset_name duration_range
     = Ok [ErrNoDataset dataset_name]
  /\ find_specific_action entries keyword (Some dataset_name)
     = [SearchBanner keyword; NoFileFound keyword]
  /\ (forall present,
        is_Some (dict_get present datasets) ->
        (forall missing, explore_dataset datasets present max_subjects
                         <> [ErrNoDataset missing])
        /\ (forall missing, find_similar_motions datasets present duration_range
                            <> Ok [ErrNoDataset missing]))
  /\ (forall present dataset_dir,
        present <> "" ->
        child entries present = Some dataset_dir ->
        Forall (fun file_path =>
                  PyStr.contains (PyStr.lower keyword)
                                 (PyStr.lower (path_name file_path)) = false)
               (rglob_npz [present] dataset_dir) ->
        find_specific_action entries keyword (Some present)
        = find_specific_action entries keyword (Some dataset_name)).
Proof.
  intros Hget Hchild Hne.
  assert (find_specific_action entries keyword (Some dataset_name)
          = [SearchBanner keyword; NoFileFound keyword]) as Hfind.
  { unfold find_specific_action. rewrite decide_False by done. simpl.
    by rewrite Hchild. }
  split; [|split; [|split; [|split]]].
  - unfold explore_dataset. by rewrite Hget.
  - unfold find_similar_motions. by rewrite Hget.
  - done.
  - intros present [info Hinfo]. split; intros missing.
    + unfold explore_dataset. rewrite Hinfo. discriminate.
    + unfold find_similar_motions. rewrite Hinfo.
      destruct (foldM _ _ _) as [[|m motions]|e]; simpl; discriminate.
  - intros present dir Hp Hc Hall. rewrite Hfind.
    unfold find_specific_action. rewrite decide_False by done. simpl.
    rewrite Hc, app_nil_r.
    assert (filter (fun file_path =>
              PyStr.contains (PyStr.lower keyword) (PyStr.lower (path_name file_path)) = true)
              (rglob_npz [present] dir) = []) as ->; [|done].
    induction Hall as [|fp l Hfp Hall IH]; [done|].
    rewrite filter_cons. rewrite decide_False by congruence. done.
Qed.

Lemma unknown_dataset_reporting_witness :
  explore_dataset [] "KIT" 5 = [ErrNoDataset "KIT"]
  /\ find_similar_motions [] "KIT" None = Ok [ErrNoDataset "KIT"]
  /\ find_specific_action archive_with_empty_dataset "walk" (Some "KIT")
     = [SearchBanner "walk"; NoFileFound "walk"].
Proof.
  destruct (unknown_dataset_reporting [] archive_with_empty_dataset "KIT" "walk" 5 None)
    as (H1 & H2 & H3 & _); try done.
Defined.

(** C5, as stated, fails for the keyword search: a dataset that does not
    exist and an empty dataset that does give the same output. *)
Lemma keyword_search_hides_missing_dataset :
  child archive_with_empty_dataset "KIT" = None
  /\ child archive_with_empty_dataset "empty" = Some (Dir [])
  /\ find_specific_action archive_with_empty_dataset "walk" (Some "KIT")
     = [SearchBanner "walk"; NoFileFound "walk"]
  /\ find_specific_action archive_with_empty_dataset "walk" (Some "empty")
     = find_specific_action archive_with_empty_dataset "walk" (Some "KIT").
Proof. repeat split; reflexivity. Qed.

(** C6 on the archive whose first file is corrupt: the one duration of
    the subject is that of [b.npz], and it is listed under the name of
    [a.npz], the file that failed to read. *)
Theorem find_similar_motions_lists_failed_file :
  exists st,
    scan_datasets (Some root_fail_first) = Ok st
    /\ read_motion (corrupt_file 1048576) = Raise LoadError
    /\ read_motion (ok_file 10 5 1048576) = Ok (10%Z, 2%Q, 1%Q)
    /\ find_similar_motions (datasets st) "ds" (Some (Num 2, Num 4))
       = Ok [MotionsFound 1;
             MotionRow {| m_subject := "s1"; m_file := "a.npz"; m_duration := 2;
                          m_frames := 10; m_file_size := 1 |}].
Proof. eexists. repeat split; reflexivity. Qed.

(** What [find_similar_motions] does guarantee. *)

Section DurationSearchFacts.
Variable duration_range : option (npfloat * npfloat).




End DurationSearchFacts.

(** The range [main] builds when only the lower bound is given. *)
Example duration_range_absent_max :
  duration_range_of_args (Some 2%Q) None = Some (Num 2, PInf)
  /\ forall d, in_range (Some (Num 2, PInf)) d = Qle_bool 2 d.
Proof. split; [reflexivity|]. intros d. unfold in_range. simpl. apply andb_true_r. Qed.

Section MeanFacts.
Lemma np_mean_empty : np_mean [] = (NaN, [MeanOfEmptySlice; InvalidValueInDivide]).
Proof. reflexivity. Qed.

Lemma np_mean_nonempty (x : Q) (l : list Q) :
  np_mean (x :: l)
  = (Num (Qred (Qsum (x :: l) / inject_Z (Z.of_nat (length (x :: l))))), []).
Proof. reflexivity. Qed.

Lemma In_py_slice_to {A : Type} (n : Z) (l : list A) (x : A) :
  In x (py_slice_to n l) -> In x l.
Proof.
  unfold py_slice_to. rewrite <- !list_elem_of_In.
  destruct (0 <=? n)%Z; apply subseteq_take.
Qed.
End MeanFacts.

(** C8, as the code has it. For every subject [explore_dataset] shows,
    both means are taken over the files of the subject that were read.
    Nothing guards the empty case: when no file was read, [np.mean]
    divides by a zero count, issues its warnings and the mean shown is
    NaN; otherwise the mean is the sum over the count and no warning is
    issued. No exception is raised either way. *)
Theorem explore_means_over_successful_reads
    (entries : list (string * node)) (st : scan_state)
    (dataset_name : string) (info : dataset_info) (max_subjects : Z)
    (s : string * subject_info) :
  scan_datasets (Some (Dir entries)) = Ok st ->
  dict_get dataset_name (datasets st) = Some info ->
  In s (py_slice_to max_subjects (subjects info)) ->
  exists dentries sentries,
    In (dataset_name, Dir dentries) entries /\
    In (s.1, Dir sentries) dentries /\
    let reads := omap read_ok (glob_npz sentries) in
    let mean_duration := np_mean (map (fun r => r.1.2) reads) in
    let mean_size := np_mean (map (fun r => r.2) reads) in
    In (SubjectMeanDuration mean_duration.1)
       (explore_dataset (datasets st) dataset_name max_subjects) /\
    In (SubjectMeanFileSize mean_size.1)
       (explore_dataset (datasets st) dataset_name max_subjects) /\
    (reads = [] ->
       mean_duration = (NaN, [MeanOfEmptySlice; InvalidValueInDivide]) /\
       mean_size = (NaN, [MeanOfEmptySlice; InvalidValueInDivide]) /\
       In (RuntimeWarning InvalidValueInDivide)
          (explore_dataset (datasets st) dataset_name max_subjects)) /\
    (reads <> [] ->
       mean_duration.2 = [] /\ mean_size.2 = [] /\
       mean_duration.1
       = Num (Qred (Qsum (map (fun r => r.1.2) reads)
                    / inject_Z (Z.of_nat (length reads))))).
Proof.
  intros Hscan Hget Hs.
  pose proof (dict_get_Some_In _ _ _ Hget) as Hin.
  destruct (scanned_dataset _ _ _ _ Hscan Hin) as (dentries & Hde & ->).
  pose proof (In_py_slice_to _ _ _ Hs) as Hs'.
  destruct s as [sn sinfo].
  destruct (scanned_subject _ _ _ _ Hs') as (sentries & Hse & _ & ->).
  exists dentries, sentries. split; [done|]. split; [done|].
  set (reads := omap read_ok (glob_npz sentries)).
  assert (forall ev,
            In ev (explore_subject (sn, subject_of dataset_name sn (glob_npz sentries))) ->
            In ev (explore_dataset (datasets st) dataset_name max_subjects)) as Hsub.
  { intros ev Hev. unfold explore_dataset. rewrite Hget. right.
    apply in_flat_map. eauto. }
  cbv zeta. split; [|split; [|split]].
  - apply Hsub. unfold explore_subject. cbn [snd durations subj_file_sizes subject_of].
    fold reads.
    destruct (np_mean (map (fun r => r.1.2) reads)) as [md wd].
    destruct (np_mean (map (fun r => r.2) reads)) as [ms ws].
    rewrite !in_app_iff. right. right. left. by left.
  - apply Hsub. unfold explore_subject. cbn [snd durations subj_file_sizes subject_of].
    fold reads.
    destruct (np_mean (map (fun r => r.1.2) reads)) as [md wd].
    destruct (np_mean (map (fun r => r.2) reads)) as [ms ws].
    rewrite !in_app_iff. do 4 right. left. by left.
  - intros E. repeat split.
    + by rewrite E.
    + by rewrite E.
    + apply Hsub. unfold explore_subject. cbn [snd durations subj_file_sizes subject_of].
      fold reads. rewrite E. simpl. do 4 right. by left.
  - intros E. subst reads.
    destruct (omap read_ok (glob_npz sentries)) as [|r reads']; [done|].
    split; [reflexivity | split; [reflexivity|]].
    cbn [map]. rewrite np_mean_nonempty. cbn [fst length]. by rewrite length_map.
Qed.

Lemma explore_means_over_successful_reads_witness :
  exists st,
    scan_datasets (Some root_all_corrupt) = Ok st /\
    In (SubjectMeanDuration NaN) (explore_dataset (datasets st) "ds" 5) /\
    In (RuntimeWarning InvalidValueInDivide) (explore_dataset (datasets st) "ds" 5).
Proof.
  eexists. split; [reflexivity|].
  destruct (explore_means_over_successful_reads
              [("ds", Dir [("s1", Dir [("a.npz", corrupt_file 1048576)])])]
              _ "ds" _ 5
              ("s1", subject_of "ds" "s1" [("a.npz", corrupt_file 1048576)])
              eq_refl eq_refl)
    as (dentries & sentries & Hd & Hs & Hmd & Hms & Hempty & _).
  - left. reflexivity.
  - simpl. auto 10.
Defined.

(** C8, as stated, fails: on a subject whose only file is corrupt the
    division is carried out with a zero count, as the warnings show. *)
Lemma explore_divides_by_zero_count :
  exists st,
    scan_datasets (Some root_all_corrupt) = Ok st /\
    explore_dataset (datasets st) "ds" 5
    = [DatasetHeader "ds"; SubjectName "s1"; SubjectFileCount 1; SubjectTotalFrames 0;
       RuntimeWarning MeanOfEmptySlice; RuntimeWarning InvalidValueInDivide;
       SubjectMeanDuration NaN;
       RuntimeWarning MeanOfEmptySlice; RuntimeWarning InvalidValueInDivide;
       SubjectMeanFileSize NaN;
       ShownFile "a.npz"] /\
    np_true_divide (Qsum []) (length (@nil Q)) = (NaN, [InvalidValueInDivide]).
Proof. eexists. repeat split; reflexivity. Qed.

(** ** The action analysis *)

Section GroupingFacts.
Context {A : Type}.
Implicit Types (d : dict (list A)) (k : string).

Lemma dict_total_alter_snoc k (x : A) d l :
  dict_get k d = Some l ->
  dict_total (dict_alter (fun l => l ++ [x]) k d) = S (dict_total d).
Proof.
  unfold dict_total. revert l. induction d as [|[k' v'] d IH]; intros l; simpl; [done|].
  destruct (decide (k = k')) as [->|Hne]; simpl.
  - intros _. rewrite length_app. simpl. lia.
  - intros H. rewrite (IH l H). lia.
Qed.

Lemma dict_total_append k (x : A) d : dict_total (dict_append k x d) = S (dict_total d).
Proof.
  unfold dict_append, dict_mem. case_bool_decide as H.
  - destruct H as [l Hl]. by eapply dict_total_alter_snoc.
  - unfold dict_total. rewrite sum_list_with_app. simpl. lia.
Qed.
End GroupingFacts.

Section PartitionFacts.
Variable table : rules.

Lemma extract_fold_total (files : list path) cats :
  dict_total (foldl (fun cats file_path =>
                       dict_append (classify table (path_name file_path)) file_path cats)
                    cats files)
  = dict_total cats + length files.
Proof.
  revert cats. induction files as [|f files IH]; intros cats; simpl; [lia|].
  rewrite IH, dict_total_append. lia.
Qed.

Lemma extract_fold_grouped (done_files files : list path) cats :
  grouped_right table done_files cats ->
  grouped_right table (done_files ++ files)
    (foldl (fun cats file_path =>
              dict_append (classify table (path_name file_path)) file_path cats)
           cats files).
Proof.
  revert done_files cats. induction files as [|f files IH]; intros done_files cats H; simpl.
  - by rewrite app_nil_r.
  - replace (done_files ++ f :: files) with ((done_files ++ [f]) ++ files)
      by (by rewrite <- app_assoc).
    apply IH. intros c l fp Hget Hin.
    destruct (decide (classify table (path_name f) = c)) as [<-|Hne].
    + rewrite dict_get_append_eq in Hget. injection Hget as <-.
      apply in_app_iff in Hin as [Hin|[<-|[]]].
      * destruct (dict_get (classify table (path_name f)) cats) as [l|] eqn:E;
          simpl in Hin; [|done].
        destruct (H _ _ _ E Hin) as [-> ?]. split; [done|].
        rewrite in_app_iff. by left.
      * split; [done|]. rewrite in_app_iff. right. by left.
    + rewrite dict_get_append_ne in Hget by done.
      destruct (H _ _ _ Hget Hin) as [-> ?]. split; [done|].
      rewrite in_app_iff. by left.
Qed.
End PartitionFacts.

(** X1. [_extract_action_info] partitions the files it is given: the
    count it records is the number of files, the lists of the grouping
    hold that many files altogether, and every file listed under a
    category is one of the given files and is classified as that
    category. *)
Theorem extract_partitions_files (table : rules) (files : list path) :
  let info := _extract_action_info table files in
  ActionAnalyzer.file_count info = length files
  /\ sum_list_with (fun cat => length cat.2) (categories info) = length files
  /\ forall category l file_path,
       dict_get category (categories info) = Some l -> In file_path l ->
       category = classify table (path_name file_path) /\ In file_path files.
Proof.
  cbv zeta. split; [done|]. split.
  - simpl. apply (extract_fold_total table files []).
  - apply (extract_fold_grouped table [] files []). intros c l fp H. discriminate H.
Qed.

Section StatisticsFacts.

Lemma extract_total (table : rules) (files : list path) :
  dict_total (categories (_extract_action_info table files)) = length files.
Proof. apply (extract_fold_total table files []). Qed.

(** The loop of [_show_action_statistics] over a grouping whose files are
    counted by [n]: the division is reached with a non-zero [n] only. *)
Lemma show_statistics_fold (n : nat) (cats : dict (list path)) (out : list analysis_event) :
  (n = 0 -> dict_total cats = 0) ->
  exists stats,
    foldM (fun out cat =>
             match cat.2 with
             | [] => Ok out
             | _ :: _ =>
                 match n with
                 | O => Raise ZeroDivisionError
                 | S _ =>
                     Ok (out ++ [CategoryStat cat.1 (length cat.2)
                                   (Qred (inject_Z (Z.of_nat (length cat.2))
                                          / inject_Z (Z.of_nat n) * 100))])
                 end
             end) out cats = Ok (out ++ stats)
    /\ sum_list (omap stat_count stats) = dict_total cats.
Proof.
  revert out. induction cats as [|[c l] cats IH]; intros out Hn.
  - exists []. by rewrite app_nil_r.
  - cbn [foldM]. destruct l as [|x l]; cbn [snd mbind result_bind].
    + destruct (IH out Hn) as (stats & -> & Hs). exists stats. split; [done|].
      by rewrite Hs.
    + destruct n as [|n]; [by specialize (Hn eq_refl)|].
      destruct (IH (out ++ [CategoryStat c (length (x :: l))
                   (Qred (inject_Z (Z.of_nat (length (x :: l)))
                          / inject_Z (Z.of_nat (S n)) * 100))])) as (stats & Hf & Hs).
      { intros [=]. }
      eexists (_ :: stats). split.
      * etrans; [exact Hf|]. by rewrite <- app_assoc.
      * unfold dict_total in *. csimpl. by rewrite Hs.
Qed.
End StatisticsFacts.

(** X2. On the grouping built by [_extract_action_info],
    [_show_action_statistics] never divides by zero, whatever the files
    (an empty list of files leaves every category empty, so that the
    division is never reached), and the counts of the lines it prints add
    up to the number of files. *)
Theorem statistics_never_divide_by_zero (table : rules) (files : list path) :
  exists stats,
    _show_action_statistics (_extract_action_info table files) = Ok stats
    /\ sum_list (omap stat_count stats) = length files.
Proof.
  destruct (show_statistics_fold (length files)
              (categories (_extract_action_info table files)) [])
    as (stats & Hf & Hs).
  - intros H0. by rewrite extract_total.
  - exists stats. split; [exact Hf|]. by rewrite Hs, extract_total.
Qed.

Section SplitFacts.
Variable sep : ascii.

Lemma contains_char_cons (c : ascii) (s : string) :
  PyStr.contains (String sep "") (String c s)
  = bool_decide (sep = c) || PyStr.contains (String sep "") s.
Proof.
  cbn [PyStr.contains PyStr.startswith].
  destruct (ascii_dec sep c) as [->|Hne].
  - by rewrite bool_decide_eq_true_2.
  - by rewrite bool_decide_eq_false_2.
Qed.

Lemma split_on_nonempty (s : string) : PyStr.split_on sep s <> [].
Proof.
  destruct s as [|c s]; simpl; [done|].
  destruct (ascii_dec c sep); [done|]. by destruct (PyStr.split_on sep s).
Qed.

Lemma split_on_no_sep (s : string) :
  Forall (fun part => PyStr.contains (String sep "") part = false) (PyStr.split_on sep s).
Proof.
  induction s as [|c s IH]; simpl.
  - by repeat constructor.
  - destruct (ascii_dec c sep) as [->|Hne].
    + constructor; [done|exact IH].
    + destruct (PyStr.split_on sep s) as [|part parts] eqn:E;
        [by destruct (split_on_nonempty s)|].
      apply Forall_cons in IH as [Hp Hps]. constructor; [|done].
      rewrite contains_char_cons, Hp. rewrite bool_decide_eq_false_2; [done|congruence].
Qed.

Lemma split_on_single (s part : string) : PyStr.split_on sep s = [part] -> part = s.
Proof.
  revert part. induction s as [|c s IH]; intros part; simpl.
  - by intros [= <-].
  - destruct (ascii_dec c sep) as [->|Hne].
    + intros [= _ H]. by destruct (split_on_nonempty s).
    + destruct (PyStr.split_on sep s) as [|p ps] eqn:E; [by intros [= <-]; destruct (split_on_nonempty s)|].
      intros [= <- ->]. by rewrite (IH p).
Qed.
End SplitFacts.

(** X3. The action name [_extract_action_name] takes from a file name
    never contains an underscore, whatever the file name. *)
Theorem action_name_has_no_underscore (filename : string) :
  PyStr.contains "_" (_extract_action_name filename) = false.
Proof.
  unfold _extract_action_name.
  set (stripped := PyStr.replace_all _ _ (PyStr.replace_all _ _ (PyStr.replace_all _ _ (PyStr.replace_all _ _ filename)))).
  pose proof (split_on_no_sep "_" stripped) as Hall.
  pose proof (split_on_nonempty "_" stripped) as Hne.
  rewrite Forall_forall in Hall.
  assert (forall i, i < length (PyStr.split_on "_" stripped) ->
            PyStr.contains "_" (nth i (PyStr.split_on "_" stripped) "") = false) as Hnth.
  { intros i Hi. apply Hall. apply list_elem_of_In. by apply nth_In. }
  assert (PyStr.contains "_" (List.last (PyStr.split_on "_" stripped) "") = false) as Hlast.
  { destruct (exists_last Hne) as (l & x & E). rewrite E, last_last.
    apply Hall. rewrite E. set_solver. }
  case_decide as H2.
  - destruct (PyStr.isdigit _); [|done]. case_decide as H3; [|done]. apply Hnth. lia.
  - destruct (PyStr.split_on "_" stripped) as [|p [|q ps]] eqn:E; [done| |simpl in H2; lia].
    rewrite <- (split_on_single _ _ _ E). apply Hall. set_solver.
Qed.

Section AnalysisFacts.

Lemma show_examples_no_stat (info : action_info) :
  omap stat_count (_show_action_examples info) = [].
Proof.
  assert (forall {A : Type} (g : A -> analysis_event) (l : list A),
            (forall x, stat_count (g x) = None) -> omap stat_count (map g l) = []) as Hmap.
  { intros A g l H. induction l as [|x l IH]; [done|]. csimpl. by rewrite H. }
  unfold _show_action_examples. rewrite omap_app.
  match goal with
  | |- _ ++ omap stat_count ?t = [] => assert (omap stat_count t = []) as ->
  end.
  { destruct (default [] _) as [|u us]; [done|]. csimpl.
    rewrite omap_app, Hmap by done. by destruct (decide _). }
  rewrite app_nil_r.
  induction (categories info) as [|[c l] cats IH]; [done|].
  cbn [flat_map]. rewrite omap_app, IH, app_nil_r.
  destruct l as [|x l]; [done|]. cbn [fst snd].
  destruct (decide (c = "unknown")); [done|]. csimpl.
  rewrite omap_app, Hmap by done. by destruct (decide _).
Qed.

Lemma length_dataset_npz_files dn dentries :
  length (dataset_npz_files dn dentries) = length (dataset_targets dentries).
Proof.
  unfold dataset_npz_files, dataset_targets.
  induction dentries as [|[sn [p z|ses]] des IH]; [done| |]; cbn [flat_map snd fst].
  - unfold subject_targets at 1. simpl. exact IH.
  - unfold subject_targets at 1. cbn [snd]. rewrite !length_app.
    f_equal; [apply length_map | exact IH].
Qed.
End AnalysisFacts.

(** X4. [analyze_dataset_actions] on a dataset that is a directory
    raises no exception, reports as total the number of [*.npz] files of
    its subject directories, and the counts of its category lines add up
    to that total. *)
Theorem analysis_counts_add_up
    (table : rules) (entries : list (string * node))
    (dataset_name : string) (dentries : list (string * node)) :
  dataset_name <> "" ->
  child entries dataset_name = Some (Dir dentries) ->
  exists events,
    analyze_dataset_actions table entries dataset_name = Ok events
    /\ In (AnalysisTotalFiles (length (dataset_targets dentries))) events
    /\ sum_list (omap stat_count events) = length (dataset_targets dentries).
Proof.
  intros Hne Hc. unfold analyze_dataset_actions.
  rewrite decide_False by done. rewrite Hc.
  destruct (show_statistics_fold
              (length (dataset_npz_files dataset_name dentries))
              (categories (_extract_action_info table
                             (dataset_npz_files dataset_name dentries))) [])
    as (stats & Hf & Hsum).
  { intros H0. by rewrite extract_total. }
  rewrite extract_total in Hsum.
  change (_show_action_statistics
            (_extract_action_info table (dataset_npz_files dataset_name dentries))
          = Ok stats) in Hf.
  rewrite Hf.
  eexists. split; [reflexivity|]. rewrite <- (length_dataset_npz_files dataset_name). split.
  - right. by left.
  - csimpl. by rewrite omap_app, show_examples_no_stat, app_nil_r.
Qed.

Lemma analysis_counts_add_up_witness :
  exists events,
    analyze_dataset_actions action_patterns archive_with_empty_dataset "CMU" = Ok events
    /\ In (AnalysisTotalFiles 1) events
    /\ sum_list (omap stat_count events) = 1.
Proof.
  refine (analysis_counts_add_up action_patterns archive_with_empty_dataset "CMU" _ _ eq_refl).
  discriminate.
Defined.

(** ** The index of a scan and its summary *)

(** X5. In the index of a scan, every subject has at least one file; its
    [file_count] is the length of its list of files; its lists of frames,
    durations and sizes have one common length, which is at most
    [file_count]; and the dataset holds one size per file it counts. *)
Theorem scanned_subject_lists_aligned
    (entries : list (string * node)) (st : scan_state)
    (dataset_name : string) (info : dataset_info)
    (subject_name : string) (sinfo : subject_info) :
  scan_datasets (Some (Dir entries)) = Ok st ->
  In (dataset_name, info) (datasets st) ->
  In (subject_name, sinfo) (subjects info) ->
  1 <= file_count sinfo
  /\ length (files sinfo) = file_count sinfo
  /\ length (frames sinfo) = length (durations sinfo)
  /\ length (subj_file_sizes sinfo) = length (durations sinfo)
  /\ length (durations sinfo) <= file_count sinfo
  /\ length (ds_file_sizes info) = total_files info.
Proof.
  intros Hscan Hd Hs.
  destruct (scanned_dataset _ _ _ _ Hscan Hd) as (dentries & _ & ->).
  destruct (scanned_subject _ _ _ _ Hs) as (sentries & _ & Hne & ->).
  simpl. rewrite !length_map.
  pose proof (length_reads_failures (glob_npz sentries)) as Hlen.
  repeat split; try done; try lia.
  destruct (glob_npz sentries); [done | simpl; lia].
Qed.

Lemma scanned_subject_lists_aligned_witness :
  length (durations (subject_of "ds" "s1" (subject_targets ("s1", Dir [("a.npz", corrupt_file 1048576); ("b.npz", ok_file 10 5 1048576)]))))
  <= file_count (subject_of "ds" "s1" (subject_targets ("s1", Dir [("a.npz", corrupt_file 1048576); ("b.npz", ok_file 10 5 1048576)]))).
Proof.
  apply (scanned_subject_lists_aligned
           [("ds", Dir [("s1", Dir [("a.npz", corrupt_file 1048576);
                                    ("b.npz", ok_file 10 5 1048576)])])]
           _ "ds"
           (dataset_of "ds" [("s1", Dir [("a.npz", corrupt_file 1048576);
                                         ("b.npz", ok_file 10 5 1048576)])])
           "s1" _ eq_refl).
  - left. reflexivity.
  - left. reflexivity.
Defined.

Section KeyFacts.
Context {V : Type}.

Lemma dict_keys_set k (v : V) (d : dict V) k' :
  In k' (dict_keys (dict_set k v d)) <-> k' = k \/ In k' (dict_keys d).
Proof.
  unfold dict_keys. induction d as [|[k0 v0] d IH]; csimpl.
  - intuition.
  - destruct (decide (k = k0)) as [->|Hne]; csimpl.
    + intuition.
    + rewrite IH. intuition.
Qed.

Lemma dict_keys_set_all (kvs : list (string * V)) (d : dict V) k :
  In k (dict_keys (dict_set_all kvs d)) <-> In k kvs.*1 \/ In k (dict_keys d).
Proof.
  unfold dict_set_all. revert d. induction kvs as [|[k' v'] kvs IH]; intros d; csimpl.
  - intuition.
  - rewrite IH, dict_keys_set. simpl. intuition.
Qed.

Lemma dict_get_is_Some (d : dict V) k : is_Some (dict_get k d) <-> In k (dict_keys d).
Proof.
  destruct (dict_get k d) eqn:E.
  - split; [|by eauto]. intros _. apply dict_get_Some_In in E.
    unfold dict_keys. apply list_elem_of_In, list_elem_of_fmap. eexists. split; [|by apply list_elem_of_In]. done.
  - split; [by intros [? ?]|]. intros H. by apply dict_get_None_keys in E.
Qed.
End KeyFacts.

(** X6. The datasets of the index of a scan are exactly the directories
    directly under the root, those without any motion file included; a
    plain file under the root is no dataset. *)
Theorem indexed_datasets_are_directories
    (entries : list (string * node)) (st : scan_state) (dataset_name : string) :
  scan_datasets (Some (Dir entries)) = Ok st ->
  (is_Some (dict_get dataset_name (datasets st))
   <-> exists dentries, In (dataset_name, Dir dentries) entries).
Proof.
  destruct (scan_datasets_dir entries) as (st' & -> & Hd & _). intros [= <-].
  rewrite Hd, dict_get_is_Some, dict_keys_set_all. unfold indexed_datasets. split.
  - intros [H|[]]. apply list_elem_of_In, list_elem_of_fmap in H as ([k v] & -> & H).
    apply list_elem_of_omap in H as ([dn [p s|des]] & Hin & Hg); simpl in Hg; [done|].
    injection Hg as <- <-. exists des. by apply list_elem_of_In.
  - intros [des Hin]. left. apply list_elem_of_In, list_elem_of_fmap.
    exists (dataset_name, dataset_of dataset_name des). split; [done|].
    apply list_elem_of_omap. exists (dataset_name, Dir des).
    split; [by apply list_elem_of_In | done].
Qed.

Lemma indexed_datasets_are_directories_witness :
  exists st,
    scan_datasets (Some (Dir archive_with_empty_dataset)) = Ok st /\
    is_Some (dict_get "empty" (datasets st)).
Proof.
  eexists. split; [reflexivity|].
  apply (indexed_datasets_are_directories archive_with_empty_dataset _ "empty" eq_refl).
  exists []. right. by left.
Defined.

Section SummaryFacts.

Lemma Nsum_from (acc : nat) (l : list nat) : foldl Nat.add acc l = acc + sum_list l.
Proof.
  revert acc. induction l as [|x l IH]; intros acc; simpl; [lia|]. rewrite IH. lia.
Qed.

Lemma Nsum_sum_list (l : list nat) : Nsum l = sum_list l.
Proof. unfold Nsum. by rewrite Nsum_from. Qed.

Lemma summary_row_names (ds : dict dataset_info) :
  omap summary_row_name (print_summary ds)
  = (py_sorted (fun a b => String.leb a.1 b.1) ds).*1.
Proof.
  unfold print_summary. rewrite omap_app. simpl.
  induction (py_sorted _ ds) as [|d l IH]; [done|]. csimpl. by rewrite IH.
Qed.

Lemma length_scan_warnings (entries : list (string * node)) :
  length (scan_warnings entries)
  = length (filter (fun f => read_failed f = true) (archive_targets entries)).
Proof.
  assert (forall dn sn l, length (omap (read_warning dn sn) l)
                          = length (filter (fun f => read_failed f = true) l)) as Hsub.
  { intros dn sn l. induction l as [|f l IH]; [done|].
    rewrite filter_cons. csimpl. unfold read_warning at 1.
    destruct (decide (read_failed f = true)) as [Hf|Hf];
      unfold read_failed, is_ok in Hf;
      destruct (read_motion f.2); simpl in *; try done; by rewrite IH. }
  assert (forall dn des, length (dataset_warnings dn des)
                         = length (filter (fun f => read_failed f = true) (dataset_targets des)))
    as Hds.
  { intros dn des. unfold dataset_warnings, dataset_targets.
    induction des as [|s des IH]; [done|]. simpl.
    rewrite filter_app, !length_app, IH, Hsub. done. }
  unfold scan_warnings, archive_targets.
  induction entries as [|[dn [p s|des]] entries IH]; [done| |]; simpl; [done|].
  by rewrite filter_app, !length_app, IH, Hds.
Qed.

Lemma sum_total_files_indexed (entries : list (string * node)) :
  sum_list_with (fun d => total_files d.2) (indexed_datasets entries)
  = length (omap read_ok (archive_targets entries)).
Proof.
  unfold indexed_datasets, archive_targets.
  induction entries as [|[dn [p s|des]] entries IH]; [done| |]; csimpl; [done|].
  by rewrite omap_app, length_app, IH.
Qed.

Lemma scanned_datasets_unique (entries : list (string * node)) (st : scan_state) :
  scan_datasets (Some (Dir entries)) = Ok st ->
  unique_names entries ->
  datasets st = indexed_datasets entries.
Proof.
  destruct (scan_datasets_dir entries) as (st' & -> & Hd & _). intros [= <-] Hu.
  rewrite Hd. by rewrite dict_set_all_fresh by (by apply indexed_datasets_NoDup).
Qed.
End SummaryFacts.

(** X7. A scan accounts for every motion file of the archive once: the
    [total_files] of the datasets and the warnings printed after the
    banner add up to the number of [*.npz] files found in the subject
    directories. *)
Theorem scan_accounts_for_every_file
    (entries : list (string * node)) (st : scan_state) :
  scan_datasets (Some (Dir entries)) = Ok st ->
  unique_names entries ->
  sum_list_with (fun d => total_files d.2) (datasets st) + (length (stdout st) - 1)
  = length (archive_targets entries).
Proof.
  intros Hscan Hu. rewrite (scanned_datasets_unique _ _ Hscan Hu).
  destruct (scan_datasets_dir entries) as (st' & Hs & _ & Hout).
  rewrite Hscan in Hs. injection Hs as <-. rewrite Hout. simpl. rewrite Nat.sub_0_r.
  rewrite sum_total_files_indexed, length_scan_warnings.
  apply length_reads_failures.
Qed.

Lemma scan_accounts_for_every_file_witness :
  exists st,
    scan_datasets (Some root_five_two) = Ok st /\
    sum_list_with (fun d => total_files d.2) (datasets st) + (length (stdout st) - 1) = 7.
Proof.
  eexists. split; [reflexivity|].
  refine (scan_accounts_for_every_file _ _ eq_refl _).
  unfold unique_names. by apply (bool_decide_unpack _).
Defined.

(** X8. [print_summary] prints one row per dataset of the index, in
    ascending order of the dataset names, whatever the order of the
    index. *)
Theorem summary_rows_sorted_by_name (ds : dict dataset_info) :
  Sorted (fun a b => String.leb a b = true) (omap summary_row_name (print_summary ds))
  /\ omap summary_row_name (print_summary ds) ≡ₚ dict_keys ds.
Proof.
  rewrite summary_row_names. split.
  - apply (Sorted_fmap _ (fun a b : string * dataset_info => String.leb a.1 b.1 = true)); [done|].
    apply py_sorted_Sorted. intros a b. apply String.leb_total.
  - unfold dict_keys. by rewrite py_sorted_Permutation.
Qed.

(** X9. After a scan, the summary reports as number of datasets the
    number of directories under the root, and as number of files the
    number of motion files that were read successfully. *)
Theorem summary_totals_count_read_files
    (entries : list (string * node)) (st : scan_state) :
  scan_datasets (Some (Dir entries)) = Ok st ->
  unique_names entries ->
  In (SummaryDatasets (length (dataset_names entries))) (print_summary (datasets st))
  /\ In (SummaryFiles (length (omap read_ok (archive_targets entries))))
        (print_summary (datasets st)).
Proof.
  intros Hscan Hu. rewrite (scanned_datasets_unique _ _ Hscan Hu).
  unfold print_summary. split.
  - left. f_equal. unfold indexed_datasets, dataset_names. rewrite length_fmap.
    clear. induction entries as [|[dn [p s|des]] entries IH]; [done| |].
    + by rewrite filter_cons_False by done.
    + rewrite filter_cons_True by done. csimpl. by rewrite IH.
  - right. left. f_equal. rewrite Nsum_sum_list.
    rewrite <- sum_total_files_indexed. clear.
    induction (indexed_datasets entries) as [|d l IH]; [done|]. simpl. by rewrite IH.
Qed.

Lemma summary_totals_count_read_files_witness :
  exists st,
    scan_datasets (Some root_five_two) = Ok st /\
    In (SummaryDatasets 1) (print_summary (datasets st)) /\
    In (SummaryFiles 5) (print_summary (datasets st)).
Proof.
  eexists. split; [reflexivity|].
  refine (summary_totals_count_read_files _ _ eq_refl _).
  unfold unique_names. by apply (bool_decide_unpack _).
Defined.

(** ** The CSV export *)

Section FoldMFacts.
Context {X S : Type} (step : S -> X -> result S) (e : exn).

Lemma foldM_all_succeed (l : list X) (acc : S) :
  Forall (step_succeeds step) l -> exists res, foldM step acc l = Ok res.
Proof.
  intros H. revert acc. induction H as [|x l Hx Hl IH]; intros acc; simpl; [eauto|].
  destruct (Hx acc) as [acc' ->]. simpl. apply IH.
Qed.

Lemma foldM_some_raises (l : list X) (acc : S) :
  Forall (fun x => step_succeeds step x \/ step_raises step e x) l ->
  Exists (step_raises step e) l -> foldM step acc l = Raise e.
Proof.
  intros Hall. revert acc. induction Hall as [|x l Hx Hl IH]; intros acc Hex; simpl.
  - by apply Exists_nil in Hex.
  - destruct Hx as [Hx|Hx].
    + destruct (Hx acc) as [acc' ->]. simpl. apply IH.
      apply Exists_cons in Hex as [Hex|Hex]; [|done].
      specialize (Hex acc'). destruct (Hx acc') as [? E]. congruence.
    + by rewrite Hx.
Qed.

Lemma foldM_invariant_In (P : S -> Prop) (l : list X) (acc res : S) :
  (forall acc x acc', In x l -> P acc -> step acc x = Ok acc' -> P acc') ->
  P acc -> foldM step acc l = Ok res -> P res.
Proof.
  revert acc. induction l as [|x l IH]; intros acc Hstep Hacc; simpl.
  - by intros [= <-].
  - destruct (step acc x) as [acc'|e'] eqn:E; simpl; [|done].
    apply IH.
    + intros a y a' Hy. apply Hstep. by right.
    + eapply Hstep; [by left|done|done].
Qed.
End FoldMFacts.

Section ExportFacts.

Lemma getitem_Ok {A : Type} (l : list A) (i : nat) :
  i < length l -> exists x, getitem l i = Ok x.
Proof.
  intros H. unfold getitem. destruct (lookup_lt_is_Some_2 l i H) as [x ->]. eauto.
Qed.

Lemma getitem_Raise {A : Type} (l : list A) (i : nat) :
  length l <= i -> getitem l i = Raise IndexError.
Proof. intros H. unfold getitem. by rewrite lookup_ge_None_2. Qed.

Lemma In_enumerate {A : Type} (l : list A) (ix : nat * A) :
  In ix (imap pair l) <-> l !! ix.1 = Some ix.2.
Proof.
  rewrite <- list_elem_of_In, elem_of_lookup_imap. destruct ix as [i x]. simpl. split.
  - by intros (j & y & [= -> ->] & H).
  - intros H. by exists i, x.
Qed.

Lemma map_enumerate_from {A B : Type} (g : A -> B) (h : nat -> nat) (l : list A) :
  map (fun ix => g ix.2) (imap (fun i x => (h i, x)) l) = map g l.
Proof.
  revert h. induction l as [|x l IH]; intros h; simpl; [done|].
  f_equal. apply (IH (h ∘ S)).
Qed.

Lemma map_enumerate {A B : Type} (g : A -> B) (l : list A) :
  map (fun ix => g ix.2) (imap pair l) = map g l.
Proof. apply (map_enumerate_from g (fun i => i)). Qed.

Lemma export_row_cases dn s (ix : nat * path) :
  (ix.1 < length (frames s.2) /\ ix.1 < length (durations s.2)
   /\ ix.1 < length (subj_file_sizes s.2) /\ step_succeeds (export_row dn s) ix)
  \/ ((length (frames s.2) <= ix.1 \/ length (durations s.2) <= ix.1
       \/ length (subj_file_sizes s.2) <= ix.1)
      /\ step_raises (export_row dn s) IndexError ix).
Proof.
  unfold step_succeeds, step_raises, export_row.
  destruct (decide (ix.1 < length (frames s.2))) as [H1|H1].
  2: { assert (length (frames s.2) <= ix.1) as Hle by lia.
       right. split; [by left|]. intros acc. by rewrite (getitem_Raise _ _ Hle). }
  destruct (getitem_Ok _ _ H1) as [n ->].
  destruct (decide (ix.1 < length (durations s.2))) as [H2|H2].
  2: { assert (length (durations s.2) <= ix.1) as Hle by lia.
       right. split; [right; by left|]. intros acc. simpl.
       by rewrite (getitem_Raise _ _ Hle). }
  destruct (getitem_Ok _ _ H2) as [d ->].
  destruct (decide (ix.1 < length (subj_file_sizes s.2))) as [H3|H3].
  2: { assert (length (subj_file_sizes s.2) <= ix.1) as Hle by lia.
       right. split; [right; by right|]. intros acc. simpl.
       by rewrite (getitem_Raise _ _ Hle). }
  destruct (getitem_Ok _ _ H3) as [z ->].
  left. repeat split; try done. intros acc. simpl. eauto.
Qed.

Lemma export_subject_complete dn s :
  subject_complete s.2 -> step_succeeds (fun data s => export_subject dn data s) s.
Proof.
  intros (H1 & H2 & H3) data. unfold export_subject.
  apply (foldM_all_succeed (export_row dn s)).
  apply Forall_forall. intros ix Hix%list_elem_of_In%In_enumerate.
  apply lookup_lt_Some in Hix.
  destruct (export_row_cases dn s ix) as [(_ & _ & _ & H)|[H _]]; [done|lia].
Qed.

Lemma export_subject_incomplete dn s :
  ~ subject_complete s.2 ->
  step_raises (fun data s => export_subject dn data s) IndexError s.
Proof.
  intros Hn data. unfold export_subject.
  apply (foldM_some_raises (export_row dn s)).
  - apply Forall_forall. intros ix _.
    destruct (export_row_cases dn s ix) as [(_ & _ & _ & H)|[_ H]]; auto.
  - set (m := Nat.min (Nat.min (length (frames s.2)) (length (durations s.2)))
                      (length (subj_file_sizes s.2))).
    assert (m < length (files s.2)) as Hm.
    { unfold subject_complete in Hn. lia. }
    destruct (lookup_lt_is_Some_2 _ _ Hm) as [p Hp].
    apply Exists_exists. exists (m, p). split.
    + apply list_elem_of_In, In_enumerate. done.
    + destruct (export_row_cases dn s (m, p)) as [(? & ? & ? & _)|[_ H]];
        [simpl in *; lia | done].
Qed.

Lemma subject_complete_dec (s : subject_info) : Decision (subject_complete s).
Proof. unfold subject_complete. apply _. Qed.

Lemma export_dataset_cases (d : string * dataset_info) :
  (Forall (fun s => subject_complete s.2) (subjects d.2)
   /\ step_succeeds (fun data d => foldM (export_subject d.1) data (subjects d.2)) d)
  \/ (Exists (fun s => ~ subject_complete s.2) (subjects d.2)
      /\ step_raises (fun data d => foldM (export_subject d.1) data (subjects d.2))
                     IndexError d).
Proof.
  destruct (decide (Forall (fun s : string * subject_info => subject_complete s.2)
                           (subjects d.2))) as [H|H].
  - left. split; [done|]. intros data.
    apply (foldM_all_succeed (fun data s => export_subject d.1 data s)).
    eapply Forall_impl; [exact H|]. intros s Hs. by apply export_subject_complete.
  - right. apply not_Forall_Exists in H; [|intros s; apply subject_complete_dec].
    split; [done|]. intros data.
    apply (foldM_some_raises (fun data s => export_subject d.1 data s)).
    + apply Forall_forall. intros s _.
      destruct (decide (subject_complete s.2)); [left|right].
      * by apply export_subject_complete.
      * by apply export_subject_incomplete.
    + eapply Exists_impl; [exact H|]. intros s Hs. by apply export_subject_incomplete.
Qed.
End ExportFacts.

(** X10. [export_summary_csv] returns its rows when every subject of
    the index has a frame count, a duration and a size for each of its
    files, and raises [IndexError] as soon as one subject lacks one. *)
Theorem export_needs_complete_subjects (ds : dict dataset_info) :
  (Forall (fun d => Forall (fun s => subject_complete s.2) (subjects d.2)) ds ->
   exists rows, export_summary_csv ds = Ok rows)
  /\ (Exists (fun d => Exists (fun s => ~ subject_complete s.2) (subjects d.2)) ds ->
      export_summary_csv ds = Raise IndexError).
Proof.
  unfold export_summary_csv. split.
  - intros H.
    apply (foldM_all_succeed
             (fun data d => foldM (export_subject d.1) data (subjects d.2))).
    eapply Forall_impl; [exact H|]. intros d Hd.
    destruct (export_dataset_cases d) as [[_ ?]|[Hex _]]; [done|].
    apply Exists_exists in Hex as (s & Hs & Hn). rewrite Forall_forall in Hd.
    by destruct (Hn (Hd s Hs)).
  - intros H.
    apply (foldM_some_raises
             (fun data d => foldM (export_subject d.1) data (subjects d.2))).
    + apply Forall_forall. intros d _.
      destruct (export_dataset_cases d) as [[_ ?]|[_ ?]]; auto.
    + eapply Exists_impl; [exact H|]. intros d Hd.
      destruct (export_dataset_cases d) as [[Hall _]|[_ ?]]; [|done].
      apply Exists_exists in Hd as (s & Hs & Hn). rewrite Forall_forall in Hall.
      by destruct (Hn (Hall s Hs)).
Qed.

(** The index of [root_fail_first] has a subject with two files and one
    metadata entry: the export raises. *)
Lemma export_needs_complete_subjects_witness :
  exists st,
    scan_datasets (Some root_fail_first) = Ok st /\
    Exists (fun d => Exists (fun s => ~ subject_complete s.2) (subjects d.2)) (datasets st) /\
    export_summary_csv (datasets st) = Raise IndexError.
Proof.
  eexists. split; [reflexivity|].
  assert (Exists (fun d : string * dataset_info =>
                    Exists (fun s => ~ subject_complete s.2) (subjects d.2))
                 (indexed_datasets
                    [("ds", Dir [("s1", Dir [("a.npz", corrupt_file 1048576);
                                             ("b.npz", ok_file 10 5 1048576)])])])) as H.
  { apply Exists_cons_hd. apply Exists_cons_hd. unfold subject_complete. simpl. lia. }
  split; [exact H|].
  exact (proj2 (export_needs_complete_subjects _) H).
Defined.

Section ExportRowFacts.

Lemma foldM_keys {X R K : Type} (step : list R -> X -> result (list R))
    (key : R -> K) (keys_of : X -> list K) :
  (forall acc x acc', step acc x = Ok acc' -> map key acc' = map key acc ++ keys_of x) ->
  forall l acc res,
    foldM step acc l = Ok res -> map key res = map key acc ++ flat_map keys_of l.
Proof.
  intros Hstep l. induction l as [|x l IH]; intros acc res; simpl.
  - intros [= <-]. by rewrite app_nil_r.
  - destruct (step acc x) as [acc'|e] eqn:E; simpl; [|done].
    intros H. rewrite (IH _ _ H), (Hstep _ _ _ E). by rewrite <- app_assoc.
Qed.

Lemma flat_map_singleton {A B : Type} (g : A -> B) (l : list A) :
  flat_map (fun x => [g x]) l = map g l.
Proof. induction l as [|x l IH]; [done|]. simpl. by rewrite IH. Qed.

Lemma export_row_key dn s acc ix acc' :
  export_row dn s acc ix = Ok acc' ->
  map row_key acc' = map row_key acc ++ [(dn, s.1, path_name ix.2)].
Proof.
  unfold export_row.
  destruct (getitem (frames s.2) ix.1); simpl; [|done].
  destruct (getitem (durations s.2) ix.1); simpl; [|done].
  destruct (getitem (subj_file_sizes s.2) ix.1); simpl; [|done].
  intros [= <-]. by rewrite map_app.
Qed.

Lemma export_subject_keys dn acc s acc' :
  export_subject dn acc s = Ok acc' ->
  map row_key acc' = map row_key acc
                     ++ map (fun file_path => (dn, s.1, path_name file_path)) (files s.2).
Proof.
  unfold export_subject. intros H.
  rewrite (foldM_keys (export_row dn s) row_key
             (fun ix => [(dn, s.1, path_name ix.2)])
             (export_row_key dn s) _ _ _ H).
  f_equal. rewrite flat_map_singleton.
  exact (map_enumerate (fun p => (dn, s.1, path_name p)) (files s.2)).
Qed.

Lemma lookup_map {A B : Type} (g : A -> B) (l : list A) (i : nat) :
  map g l !! i = g <$> l !! i.
Proof. change (map g l) with (g <$> l). apply list_lookup_fmap. Qed.

Lemma omap_lookup_all {A B : Type} (g : A -> option B) (l : list A) (i : nat) (x : A) :
  length (omap g l) = length l -> l !! i = Some x -> omap g l !! i = g x.
Proof.
  revert i. induction l as [|y l IH]; intros i; [done|]. csimpl.
  assert (length (omap g l) <= length l) as Hle.
  { clear. induction l as [|z l IH]; [done|]. csimpl. destruct (g z); simpl; lia. }
  destruct (g y) as [b|] eqn:E; simpl; [|lia].
  intros [= Hlen]. destruct i as [|i]; simpl.
  - intros [= <-]. by rewrite E.
  - intros Hx. by apply IH.
Qed.
End ExportRowFacts.

(** X11. When [export_summary_csv] returns, its rows name the files of
    the index one by one, in the order of the index: datasets, then
    subjects, then files. *)
Theorem export_rows_follow_index (ds : dict dataset_info) (rows : list csv_row) :
  export_summary_csv ds = Ok rows ->
  map row_key rows = index_entries ds.
Proof.
  unfold export_summary_csv, index_entries. intros H.
  rewrite (foldM_keys (fun data d => foldM (export_subject d.1) data (subjects d.2))
             row_key
             (fun d => flat_map (fun s => map (fun file_path => (d.1, s.1, path_name file_path))
                                              (files s.2)) (subjects d.2))
             (fun acc d acc' Hd =>
                foldM_keys (export_subject d.1) row_key
                  (fun s => map (fun file_path => (d.1, s.1, path_name file_path)) (files s.2))
                  (export_subject_keys d.1) _ _ _ Hd)
             _ _ _ H).
  done.
Qed.

Lemma export_rows_follow_index_witness :
  exists st rows,
    scan_datasets (Some root_unsorted) = Ok st /\
    export_summary_csv (datasets st) = Ok rows /\
    length rows = 2 /\
    map row_key rows = index_entries (datasets st).
Proof.
  do 2 eexists. split; [reflexivity|]. split; [reflexivity|]. split; [reflexivity|].
  apply export_rows_follow_index. reflexivity.
Defined.

(** X12. When [export_summary_csv] returns on the index of a scan,
    every row names a file of the archive and carries the frame count,
    duration and size read from that very file. *)
Theorem export_rows_describe_their_file
    (entries : list (string * node)) (st : scan_state) (rows : list csv_row) :
  scan_datasets (Some (Dir entries)) = Ok st ->
  export_summary_csv (datasets st) = Ok rows ->
  Forall (row_of_file entries) rows.
Proof.
  intros Hscan. unfold export_summary_csv.
  apply (foldM_invariant_In _ (Forall (row_of_file entries))); [|constructor].
  intros acc [dn info] acc' Hd Hacc. cbn [fst snd].
  destruct (scanned_dataset _ _ _ _ Hscan Hd) as (dentries & Hde & ->).
  apply (foldM_invariant_In _ (Forall (row_of_file entries))); [|done].
  clear acc acc' Hacc. intros acc [sn sinfo] acc' Hs Hacc Hexp.
  destruct (scanned_subject _ _ _ _ Hs) as (sentries & Hse & _ & ->).
  set (found := glob_npz sentries) in *.
  assert (length (omap read_ok found) = length found) as Hfull.
  { destruct (decide (subject_complete (subject_of dn sn found))) as [Hc|Hc].
    - destruct Hc as (Hc & _). simpl in Hc. rewrite !length_map in Hc.
      pose proof (length_reads_failures found). lia.
    - by rewrite (export_subject_incomplete dn (sn, subject_of dn sn found) Hc acc) in Hexp. }
  revert Hexp. unfold export_subject.
  apply (foldM_invariant_In _ (Forall (row_of_file entries))); [|done].
  clear acc acc' Hacc. intros acc [i p] acc' Hix%In_enumerate Hacc. cbn [fst snd] in *.
  simpl in Hix. rewrite lookup_map in Hix.
  destruct (found !! i) as [f|] eqn:Hf; [|done]. injection Hix as <-.
  pose proof (omap_lookup_all read_ok found i f Hfull Hf) as Hr.
  unfold getitem. cbn [frames durations subj_file_sizes subject_of].
  fold found. rewrite !lookup_map, Hr.
  destruct (read_ok f) as [[[n d] z]|] eqn:E; simpl; [|done].
  intros [= <-]. apply Forall_app. split; [done|]. constructor; [|constructor].
  exists dentries, sentries, f. simpl. repeat split; try done.
  apply list_elem_of_In, list_elem_of_lookup. eauto.
Qed.

Lemma export_rows_describe_their_file_witness :
  exists st rows,
    scan_datasets (Some root_unsorted) = Ok st /\
    export_summary_csv (datasets st) = Ok rows /\
    length rows = 2 /\
    Forall (row_of_file [("b", Dir [("s", Dir [("x.npz", ok_file 10 5 1048576)])]);
                         ("a", Dir [("s", Dir [("x.npz", ok_file 10 5 1048576)])])]) rows.
Proof.
  do 2 eexists. split; [reflexivity|]. split; [reflexivity|]. split; [reflexivity|].
  apply (export_rows_describe_their_file _ _ _ eq_refl). reflexivity.
Defined.

Section CleanScanFacts.

Lemma In_archive_targets (entries : list (string * node)) (f : string * node) :
  In f (archive_targets entries) <->
  exists dn dentries s, In (dn, Dir dentries) entries /\ In s dentries
                        /\ In f (subject_targets s).
Proof.
  unfold archive_targets, dataset_targets. rewrite in_flat_map. split.
  - intros ([dn [p z|des]] & Hd & Hf); simpl in Hf; [done|].
    apply in_flat_map in Hf as (s & Hs & Hf). by exists dn, des, s.
  - intros (dn & des & s & Hd & Hs & Hf). exists (dn, Dir des). split; [done|].
    simpl. apply in_flat_map. by exists s.
Qed.

Lemma scan_warnings_nil (entries : list (string * node)) :
  scan_warnings entries = [] <->
  Forall (fun f => read_failed f = false) (archive_targets entries).
Proof.
  rewrite <- length_zero_iff_nil, length_scan_warnings, length_zero_iff_nil.
  induction (archive_targets entries) as [|f l IH]; [by split; [constructor|]|].
  rewrite Forall_cons, <- IH. destruct (read_failed f) eqn:E.
  - rewrite filter_cons_True by done. split; [done|]. by intros [? _].
  - rewrite filter_cons_False by congruence. tauto.
Qed.

Lemma subject_of_complete dn sn found :
  subject_complete (subject_of dn sn found) <->
  Forall (fun f => read_failed f = false) found.
Proof.
  unfold subject_complete. simpl. rewrite !length_map.
  pose proof (length_reads_failures found) as Hlen.
  assert (length (filter (fun f => read_failed f = true) found) = 0
          <-> Forall (fun f => read_failed f = false) found) as <-.
  { clear. rewrite length_zero_iff_nil.
    induction found as [|f l IH]; [by split; [constructor|]|].
    rewrite Forall_cons, <- IH. destruct (read_failed f) eqn:E.
    - rewrite filter_cons_True by done. split; [done|]. by intros [? _].
    - rewrite filter_cons_False by congruence. tauto. }
  lia.
Qed.
End CleanScanFacts.

(** X13. After a scan, [export_summary_csv] returns its rows exactly
    when the scan printed no warning: one file that failed to read makes
    the export raise [IndexError]. *)
Theorem export_needs_a_clean_scan
    (entries : list (string * node)) (st : scan_state) :
  scan_datasets (Some (Dir entries)) = Ok st ->
  unique_names entries ->
  (forall dataset_name dentries,
     In (dataset_name, Dir dentries) entries -> unique_names dentries) ->
  (stdout st = [ScanBanner] -> exists rows, export_summary_csv (datasets st) = Ok rows)
  /\ (stdout st <> [ScanBanner] -> export_summary_csv (datasets st) = Raise IndexError).
Proof.
  intros Hscan Hu Hsub.
  destruct (scan_datasets_dir entries) as (st' & Hs & _ & Hout).
  rewrite Hscan in Hs. injection Hs as <-.
  rewrite Hout. unfold export_summary_csv. split.
  - intros [= Hw]. apply scan_warnings_nil in Hw. rewrite Forall_forall in Hw.
    apply (foldM_all_succeed
             (fun data d => foldM (export_subject d.1) data (subjects d.2))).
    apply Forall_forall. intros [dn info] Hd%list_elem_of_In.
    destruct (scanned_dataset _ _ _ _ Hscan Hd) as (dentries & Hde & ->).
    destruct (export_dataset_cases (dn, dataset_of dn dentries)) as [[_ ?]|[Hex _]];
      [done|].
    apply Exists_exists in Hex as ([sn sinfo] & Hsn%list_elem_of_In & Hn).
    destruct (scanned_subject _ _ _ _ Hsn) as (sentries & Hse & _ & ->).
    destruct Hn. apply subject_of_complete. apply Forall_forall.
    intros f Hf%list_elem_of_In. apply Hw, list_elem_of_In, In_archive_targets.
    by exists dn, dentries, (sn, Dir sentries).
  - intros Hw.
    assert (scan_warnings entries <> []) as Hne by congruence.
    rewrite scan_warnings_nil in Hne.
    apply not_Forall_Exists in Hne; [|intros f; apply _].
    apply Exists_exists in Hne as (f & Hf%list_elem_of_In%In_archive_targets & Hfail).
    destruct Hf as (dn & dentries & [sn snode] & Hde & Hs & Hf).
    destruct snode as [p z|sentries]; [destruct Hf|].
    unfold subject_targets in Hf. simpl in Hf.
    apply (foldM_some_raises
             (fun data d => foldM (export_subject d.1) data (subjects d.2))).
    + apply Forall_forall. intros d _.
      destruct (export_dataset_cases d) as [[_ ?]|[_ ?]]; auto.
    + apply Exists_exists. exists (dn, dataset_of dn dentries). split.
      * rewrite (scanned_datasets_unique _ _ Hscan Hu).
        apply list_elem_of_omap. exists (dn, Dir dentries).
        split; [by apply list_elem_of_In | done].
      * destruct (export_dataset_cases (dn, dataset_of dn dentries)) as [[Hall _]|[_ ?]];
          [|done].
        exfalso. rewrite Forall_forall in Hall.
        assert ((sn, subject_of dn sn (glob_npz sentries))
                ∈ subjects (dataset_of dn dentries)) as Hin.
        { simpl. rewrite dict_set_all_fresh
            by (apply indexed_subjects_NoDup; by apply (Hsub dn)).
          simpl. apply list_elem_of_omap. exists (sn, Dir sentries).
          split; [by apply list_elem_of_In|]. unfold subject_targets. simpl.
          destruct (glob_npz sentries); [destruct Hf | done]. }
        specialize (Hall _ Hin). simpl in Hall. apply subject_of_complete in Hall.
        rewrite Forall_forall in Hall. apply Hfail, Hall. by apply list_elem_of_In.
Qed.

Lemma export_needs_a_clean_scan_witness :
  exists st,
    scan_datasets (Some root_fail_first) = Ok st /\
    export_summary_csv (datasets st) = Raise IndexError.
Proof.
  eexists. split; [reflexivity|].
  refine (proj2 (export_needs_a_clean_scan _ _ eq_refl _ _) _).
  - unfold unique_names. by apply (bool_decide_unpack _).
  - intros dn des [[= <- <-]|[]]. unfold unique_names. by apply (bool_decide_unpack _).
  - discriminate.
Defined.


(** ** The searches *)

Section MotionSearchFacts.
Variable duration_range : option (npfloat * npfloat).

Lemma motion_step_succeeds (s : string * subject_info) (ix : nat * Q) :
  ix.1 < length (files s.2) -> ix.1 < length (frames s.2) ->
  ix.1 < length (subj_file_sizes s.2) ->
  step_succeeds (motion_step duration_range s) ix.
Proof.
  intros H1 H2 H3 acc. unfold motion_step.
  destruct (in_range duration_range ix.2); [|eauto].
  destruct (getitem_Ok _ _ H1) as [p ->].
  destruct (getitem_Ok _ _ H2) as [n ->].
  destruct (getitem_Ok _ _ H3) as [z ->]. simpl. eauto.
Qed.

Lemma subject_motions_scanned dn sn found :
  step_succeeds (subject_motions duration_range) (sn, subject_of dn sn found).
Proof.
  intros motions. unfold subject_motions.
  apply (foldM_all_succeed (motion_step duration_range (sn, subject_of dn sn found))).
  apply Forall_forall. intros ix Hix%list_elem_of_In%In_enumerate.
  apply lookup_lt_Some in Hix. simpl in Hix. rewrite length_map in Hix.
  pose proof (length_reads_failures found).
  apply motion_step_succeeds; simpl; rewrite !length_map; lia.
Qed.

Lemma foldM_length {X R : Type} (step : list R -> X -> result (list R)) (w : X -> nat) :
  (forall acc x acc', step acc x = Ok acc' -> length acc' = length acc + w x) ->
  forall l acc res,
    foldM step acc l = Ok res -> length res = length acc + sum_list_with w l.
Proof.
  intros Hstep l. induction l as [|x l IH]; intros acc res; simpl.
  - intros [= <-]. lia.
  - destruct (step acc x) as [acc'|e] eqn:E; simpl; [|done].
    intros H. rewrite (IH _ _ H), (Hstep _ _ _ E). lia.
Qed.

Lemma sum_enumerate_from {A : Type} (w : A -> nat) (h : nat -> nat) (l : list A) :
  sum_list_with (fun ix => w ix.2) (imap (fun i x => (h i, x)) l) = sum_list_with w l.
Proof.
  revert h. induction l as [|x l IH]; intros h; simpl; [done|].
  f_equal. apply (IH (h ∘ S)).
Qed.

Lemma sum_indicator_filter {A : Type} (P : A -> bool) (l : list A) :
  sum_list_with (fun x => if P x then 1 else 0) l
  = length (filter (fun x => P x = true) l).
Proof.
  induction l as [|x l IH]; [done|]. simpl. destruct (P x) eqn:E.
  - rewrite filter_cons_True by done. simpl. by rewrite IH.
  - rewrite filter_cons_False by congruence. done.
Qed.

Lemma motion_step_length s acc ix acc' :
  motion_step duration_range s acc ix = Ok acc' ->
  length acc' = length acc + (if in_range duration_range ix.2 then 1 else 0).
Proof.
  unfold motion_step. destruct (in_range duration_range ix.2); [|intros [= <-]; lia].
  destruct (getitem (files s.2) ix.1); simpl; [|done].
  destruct (getitem (frames s.2) ix.1); simpl; [|done].
  destruct (getitem (subj_file_sizes s.2) ix.1); simpl; [|done].
  intros [= <-]. rewrite length_app. simpl. lia.
Qed.

Lemma subject_motions_length acc s acc' :
  subject_motions duration_range acc s = Ok acc' ->
  length acc' = length acc
    + length (filter (fun d => in_range duration_range d = true) (durations s.2)).
Proof.
  unfold subject_motions. intros H.
  rewrite (foldM_length (motion_step duration_range s) _ (motion_step_length s) _ _ _ H).
  f_equal. rewrite <- sum_indicator_filter.
  apply (sum_enumerate_from (fun d => if in_range duration_range d then 1 else 0)
                            (fun i => i)).
Qed.

Lemma count_indexed_subjects dn entries :
  sum_list_with (fun s => length (filter (fun d => in_range duration_range d = true)
                                         (durations s.2)))
                (indexed_subjects dn entries)
  = length (reads_in_range duration_range (omap read_ok (dataset_targets entries))).
Proof.
  unfold indexed_subjects, dataset_targets, reads_in_range.
  assert (forall reads : list (Z * Q * Q),
            length (filter (fun d => in_range duration_range d = true)
                           (map (fun r => r.1.2) reads))
            = length (filter (fun r : Z * Q * Q => in_range duration_range r.1.2 = true) reads))
    as Hmap.
  { intros reads. induction reads as [|r reads IH]; [done|].
    simpl. rewrite !filter_cons. simpl.
    destruct (decide (in_range duration_range r.1.2 = true)); simpl; by rewrite IH. }
  induction entries as [|s entries IH]; [done|]. csimpl.
  rewrite omap_app, filter_app, length_app, <- IH.
  destruct (subject_targets s) as [|f found] eqn:E; [done|].
  csimpl. unfold subject_of at 1. cbn [durations]. by rewrite Hmap.
Qed.

Lemma dataset_motions_scanned dn dentries :
  exists motions,
    foldM (subject_motions duration_range) [] (subjects (dataset_of dn dentries))
    = Ok motions.
Proof.
  apply (foldM_all_succeed (subject_motions duration_range)).
  apply Forall_forall. intros [sn sinfo] Hs%list_elem_of_In.
  destruct (scanned_subject _ _ _ _ Hs) as (sentries & _ & _ & ->).
  apply subject_motions_scanned.
Qed.
End MotionSearchFacts.

(** X14. On the index of a scan, [find_similar_motions] raises no
    exception, whatever files failed to read, whatever the dataset name
    and the bounds. *)
Theorem find_similar_motions_never_raises
    (entries : list (string * node)) (st : scan_state)
    (dataset_name : string) (duration_range : option (npfloat * npfloat)) :
  scan_datasets (Some (Dir entries)) = Ok st ->
  exists events, find_similar_motions (datasets st) dataset_name duration_range = Ok events.
Proof.
  intros Hscan. unfold find_similar_motions.
  destruct (dict_get dataset_name (datasets st)) as [info|] eqn:Hget; [|eauto].
  apply dict_get_Some_In in Hget.
  destruct (scanned_dataset _ _ _ _ Hscan Hget) as (dentries & _ & ->).
  destruct (dataset_motions_scanned duration_range dataset_name dentries) as [motions ->].
  simpl. destruct motions; eauto.
Qed.

Lemma find_similar_motions_never_raises_witness :
  exists st events,
    scan_datasets (Some root_fail_first) = Ok st /\
    find_similar_motions (datasets st) "ds" None = Ok events.
Proof.
  eexists. 
  destruct (find_similar_motions_never_raises
              [("ds", Dir [("s1", Dir [("a.npz", corrupt_file 1048576);
                                       ("b.npz", ok_file 10 5 1048576)])])]
              _ "ds" None eq_refl) as [events H].
  exists events. split; [reflexivity | exact H].
Defined.

(** X15. On the index of a scan, [find_similar_motions] lists as many
    motions as files of the dataset were read successfully with a
    duration within the bounds: none gives the "nothing found" message,
    and otherwise the count is printed, followed by that many rows. *)
Theorem find_similar_motions_count
    (entries : list (string * node)) (st : scan_state)
    (dataset_name : string) (info : dataset_info)
    (duration_range : option (npfloat * npfloat)) :
  scan_datasets (Some (Dir entries)) = Ok st ->
  dict_get dataset_name (datasets st) = Some info ->
  (forall dentries, In (dataset_name, Dir dentries) entries -> unique_names dentries) ->
  exists dentries events,
    In (dataset_name, Dir dentries) entries /\
    find_similar_motions (datasets st) dataset_name duration_range = Ok events /\
    let n := length (reads_in_range duration_range
                       (omap read_ok (dataset_targets dentries))) in
    (n = 0 -> events = [NoMotionFound]) /\
    (0 < n -> exists rows, events = MotionsFound n :: rows /\ length rows = n).
Proof.
  intros Hscan Hget Hu. unfold find_similar_motions. rewrite Hget.
  apply dict_get_Some_In in Hget.
  destruct (scanned_dataset _ _ _ _ Hscan Hget) as (dentries & Hde & ->).
  exists dentries.
  destruct (dataset_motions_scanned duration_range dataset_name dentries) as [motions Hm].
  rewrite Hm.
  pose proof (foldM_length (subject_motions duration_range) _
                (subject_motions_length duration_range) _ _ _ Hm) as Hlen.
  cbn [subjects dataset_of] in Hlen.
  rewrite dict_set_all_fresh in Hlen by (apply indexed_subjects_NoDup, Hu, Hde).
  cbn [app length Nat.add] in Hlen. rewrite count_indexed_subjects in Hlen.
  cbn [mbind result_bind].
  destruct motions as [|m motions].
  - eexists. split; [done|]. split; [reflexivity|]. cbv zeta. rewrite <- Hlen. simpl.
    split; [done | lia].
  - eexists. split; [done|]. split; [reflexivity|]. cbv zeta. rewrite <- Hlen.
    split; [done|]. intros _. eexists. split; [reflexivity|].
    rewrite length_map.
    apply (Permutation_length (py_sorted_Permutation duration_leb (m :: motions))).
Qed.

Lemma find_similar_motions_count_witness :
  exists st events,
    scan_datasets (Some root_five_two) = Ok st /\
    find_similar_motions (datasets st) "ds" (Some (Num 2, Num 4)) = Ok events /\
    exists rows, events = MotionsFound 3 :: rows /\ length rows = 3.
Proof.
  eexists.
  destruct (find_similar_motions_count
              [("ds", Dir [("s1", Dir [("f1.npz", ok_file 120 120 1048576);
                               ("f2.npz", corrupt_file 10);
                               ("f3.npz", ok_file 240 120 1048576);
                               ("f4.npz", ok_file 360 120 1048576);
                               ("f5.npz", corrupt_file 20);
                               ("f6.npz", ok_file 480 120 1048576);
                               ("f7.npz", ok_file 600 120 1048576)])])]
              _ "ds" _ (Some (Num 2, Num 4)) eq_refl eq_refl)
    as (dentries & events & Hin & Hfind & _ & Hn).
  - intros des [[= <-]|[]]. unfold unique_names. by apply (bool_decide_unpack _).
  - exists events. split; [reflexivity|]. split; [exact Hfind|].
    destruct Hin as [[= <-]|[]]. apply Hn. vm_compute. lia.
Defined.

Section ExploreFacts.
Lemma omap_fmap_none {A B C : Type} (g : A -> B) (h : B -> option C) (l : list A) :
  (forall x, h (g x) = None) -> omap h (map g l) = [].
Proof. intros H. induction l as [|x l IH]; [done|]. csimpl. by rewrite H. Qed.

Lemma explore_subject_names (s : string * subject_info) :
  omap shown_subject (explore_subject s) = [s.1].
Proof.
  unfold explore_subject.
  destruct (np_mean (durations s.2)) as [md wd].
  destruct (np_mean (subj_file_sizes s.2)) as [ms ws].
  rewrite !omap_app. csimpl.
  rewrite !omap_fmap_none by done. simpl.
  by destruct (decide (3 < length (files s.2))).
Qed.
End ExploreFacts.

(** X16. [explore_dataset] shows the subjects of [subjects[:max_subjects]]
    in index order: the first [max_subjects] ones for a non-negative
    bound, and all but the last [-max_subjects] ones for a negative
    bound. *)
Theorem explore_shows_leading_subjects
    (datasets : dict dataset_info) (dataset_name : string) (info : dataset_info)
    (max_subjects : Z) :
  dict_get dataset_name datasets = Some info ->
  omap shown_subject (explore_dataset datasets dataset_name max_subjects)
  = (py_slice_to max_subjects (subjects info)).*1
  /\ ((0 <= max_subjects)%Z ->
      omap shown_subject (explore_dataset datasets dataset_name max_subjects)
      = take (Z.to_nat max_subjects) (dict_keys (subjects info)))
  /\ ((max_subjects < 0)%Z ->
      omap shown_subject (explore_dataset datasets dataset_name max_subjects)
      = take (length (subjects info) - Z.to_nat (- max_subjects))
             (dict_keys (subjects info))).
Proof.
  intros Hget.
  assert (omap shown_subject (explore_dataset datasets dataset_name max_subjects)
          = (py_slice_to max_subjects (subjects info)).*1) as Hnames.
  { unfold explore_dataset. rewrite Hget. csimpl.
    induction (py_slice_to max_subjects (subjects info)) as [|s l IH]; [done|].
    simpl. rewrite omap_app, explore_subject_names, IH. done. }
  split; [done|]. rewrite Hnames. unfold py_slice_to, dict_keys. split; intros H.
  - rewrite (proj2 (Z.leb_le 0 max_subjects) H). by rewrite fmap_take.
  - rewrite (proj2 (Z.leb_gt 0 max_subjects) H). rewrite fmap_take. f_equal. lia.
Qed.

Lemma explore_shows_leading_subjects_witness :
  exists st,
    scan_datasets (Some root_three_subjects) = Ok st /\
    omap shown_subject (explore_dataset (datasets st) "ds" (-1)) = ["s1"; "s2"].
Proof.
  eexists. split; [reflexivity|]. etrans.
  - eapply (fun H => proj2 (proj2 (explore_shows_leading_subjects _ "ds" _ (-1) H)));
      [reflexivity | lia].
  - reflexivity.
Defined.

(** X17. [find_specific_action] prints at most 20 rows: with [n] files
    found it prints the first [min n 20], followed by a line counting the
    [n - 20] others exactly when [n] exceeds 20. *)
Theorem keyword_search_prints_at_most_20_rows
    (entries : list (string * node)) (action_keyword : string)
    (dataset_name : option string) :
  let out := find_specific_action entries action_keyword dataset_name in
  length (omap found_row out) <= 20
  /\ forall n, In (FilesFound n) out ->
       length (omap found_row out) = Nat.min n 20
       /\ (20 < n -> In (MoreFiles (n - 20)) out)
       /\ (n <= 20 -> forall k, ~ In (MoreFiles k) out).
Proof.
  cbv zeta. unfold find_specific_action.
  set (found_files := flat_map _ _). clearbody found_files.
  destruct found_files as [|r rest];
    [simpl; split; [lia|]; intros n [H|[H|[]]]; done|].
  remember (r :: rest) as found eqn:E. clear E r rest.
  assert (omap found_row (map (fun r : string * path => FoundRow r.1 r.2) (take 20 found))
          = take 20 found) as Hrows.
  { induction (take 20 found) as [|[d p] l IH]; [done|]. csimpl. by rewrite IH. }
  assert (omap found_row
            (SearchBanner action_keyword :: FilesFound (length found)
             :: map (fun r : string * path => FoundRow r.1 r.2) (take 20 found)
             ++ (if decide (20 < length found)
                 then [MoreFiles (length found - 20)] else []))
          = take 20 found) as Hall.
  { csimpl. rewrite omap_app, Hrows. destruct (decide (20 < length found)); simpl;
      by rewrite app_nil_r. }
  rewrite Hall, length_take. split; [lia|].
  intros n Hn.
  assert (n = length found) as ->.
  { destruct Hn as [Hn|[Hn|Hn]]; [done|congruence|].
    apply in_app_iff in Hn as [Hn|Hn].
    - apply in_map_iff in Hn as (? & ? & _). done.
    - destruct (decide (20 < length found)); [destruct Hn as [?|[]]; done | destruct Hn]. }
  split; [lia|]. split.
  - intros Hgt. right. right. apply in_app_iff. right.
    rewrite decide_True by done. by left.
  - intros Hle k [Hk|[Hk|Hk]]; [done|done|].
    apply in_app_iff in Hk as [Hk|Hk].
    + apply in_map_iff in Hk as (? & ? & _). done.
    + rewrite decide_False in Hk by lia. destruct Hk.
Qed.

(** One file of [archive_with_empty_dataset] matches, and one row is
    printed. *)
Lemma keyword_search_prints_at_most_20_rows_witness :
  In (FilesFound 1) (find_specific_action archive_with_empty_dataset "WALK" None) /\
  length (omap found_row (find_specific_action archive_with_empty_dataset "WALK" None))
  = Nat.min 1 20.
Proof.
  assert (In (FilesFound 1) (find_specific_action archive_with_empty_dataset "WALK" None)) as H.
  { vm_compute. right. left. reflexivity. }
  split; [exact H|].
  exact (proj1 (proj2 (keyword_search_prints_at_most_20_rows
                         archive_with_empty_dataset "WALK" None) 1 H)).
Defined.





(** X20. An upper bound of 0 handed to [find] is no bound: [main] builds
    the range with [duration_max or float('inf')], so that every duration
    above the lower bound is within the range. *)
Theorem zero_duration_max_is_ignored
    (duration_min : option Q) (duration_max duration : Q) :
  (duration_max == 0)%Q ->
  (0 <= duration)%Q ->
  (forall lo, duration_min = Some lo -> (lo <= duration)%Q) ->
  in_range (duration_range_of_args duration_min (Some duration_max)) duration = true.
Proof.
  intros Hz Hd Hlo. unfold duration_range_of_args.
  assert (py_or (Some duration_max) PInf = PInf) as Hmax.
  { unfold py_or. by rewrite (proj2 (Qeq_bool_iff _ _) Hz). }
  assert (np_le (py_or duration_min (Num 0)) (Num duration) = true) as Hmin.
  { destruct duration_min as [lo|]; simpl; [|by apply Qle_bool_iff].
    destruct (Qeq_bool lo 0); simpl; apply Qle_bool_iff; auto. }
  destruct duration_min; unfold in_range; rewrite Hmax, Hmin; done.
Qed.

Lemma zero_duration_max_is_ignored_witness :
  in_range (duration_range_of_args (Some 1%Q) (Some 0%Q)) 5%Q = true.
Proof.
  apply zero_duration_max_is_ignored.
  - reflexivity.
  - discriminate.
  - intros lo [= <-]. discriminate.
Defined.

